(** * Certificate registry: the on-chain ledger and the Express backend

    A shallow embedding of
    - [src/blockchain/contracts/CertificateRegistry.sol] (module [Registry]),
    - the certificate routes of [src/backend/server.js] (module [Backend]),
    followed by the properties of the certificate lifecycle. *)

From Stdlib Require Import ZArith Ascii String DecimalString.
From stdpp Require Import gmap strings list fin_maps.

Local Open Scope string_scope.

(** ** The contract *)

Module Registry.

(** [address] is a 160-bit account identifier; the contract only compares
    addresses and uses them as mapping keys. *)
Definition address := N.

(** [struct Certificate]; the field [exists] is spelled [exists_]. *)
Record Certificate := mkCertificate {
  studentName : string;
  course : string;
  grade : string;
  issueDate : Z;
  isRevoked : bool;
  exists_ : bool
}.

(** The value a Solidity mapping holds at a key that was never written. *)
Definition zeroCertificate : Certificate :=
  mkCertificate "" "" "" 0%Z false false.

(** Contract storage. *)
Record State := mkState {
  certificates : gmap string Certificate;
  authorizedInstitutions : gmap address bool;
  admin : address
}.

Inductive Event :=
| CertificateIssued (certId studentName : string)
| CertificateRevoked (certId : string).

(** What a call sees of its transaction: [msg.sender], [block.timestamp]. *)
Record Msg := mkMsg {
  sender : address;
  timestamp : Z
}.

(** A call either returns or reverts with the reason string of the
    failed [require]. *)
Inductive result (A : Type) :=
| Ok (a : A)
| Revert (reason : string).
Arguments Ok {A} a.
Arguments Revert {A} reason.

#[export] Instance result_bind : MBind result := fun A B k r =>
  match r with
  | Ok a => k a
  | Revert reason => Revert reason
  end.

Definition require (cond : bool) (reason : string) : result unit :=
  if cond then Ok tt else Revert reason.

(** Mapping reads: [certificates[certId]], [authorizedInstitutions[a]]. *)
Definition cert_at (st : State) (certId : string) : Certificate :=
  default zeroCertificate (certificates st !! certId).

Definition authorized (st : State) (a : address) : bool :=
  default false (authorizedInstitutions st !! a).

Definition constructor (msg : Msg) : State :=
  mkState ∅ {[ sender msg := true ]} (sender msg).

Definition onlyAdmin (msg : Msg) (st : State) : result unit :=
  require (bool_decide (sender msg = admin st)) "Only admin".

Definition onlyAuthorized (msg : Msg) (st : State) : result unit :=
  require (authorized st (sender msg)) "Not authorized".

Definition addInstitution (msg : Msg) (institution : address) (st : State)
  : result (State * list Event) :=
  onlyAdmin msg st ;;
  Ok (mkState (certificates st)
              (<[ institution := true ]> (authorizedInstitutions st))
              (admin st), []).

Definition issueCertificate (msg : Msg) (certId studentName course grade : string)
    (st : State) : result (State * list Event) :=
  onlyAuthorized msg st ;;
  require (negb (exists_ (cert_at st certId))) "Already exists" ;;
  Ok (mkState
        (<[ certId := mkCertificate studentName course grade
                                    (timestamp msg) false true ]>
           (certificates st))
        (authorizedInstitutions st)
        (admin st),
      [CertificateIssued certId studentName]).

Definition revokeCertificate (msg : Msg) (certId : string) (st : State)
  : result (State * list Event) :=
  onlyAuthorized msg st ;;
  require (exists_ (cert_at st certId)) "Certificate does not exist" ;;
  require (negb (isRevoked (cert_at st certId))) "Already revoked" ;;
  let c := cert_at st certId in
  Ok (mkState
        (<[ certId := mkCertificate (studentName c) (course c) (grade c)
                                    (issueDate c) true (exists_ c) ]>
           (certificates st))
        (authorizedInstitutions st)
        (admin st),
      [CertificateRevoked certId]).

Definition verifyCertificate (certId : string) (st : State)
  : result (string * string * string * Z * bool) :=
  require (exists_ (cert_at st certId)) "Certificate does not exist" ;;
  let cert := cert_at st certId in
  Ok (studentName cert, course cert, grade cert, issueDate cert, isRevoked cert).

(** *** Transactions

    The state-changing external functions, and what the chain does with
    one: a reverted call leaves the storage as it was and logs nothing. *)
Inductive Call :=
| AddInstitution (institution : address)
| IssueCertificate (certId studentName course grade : string)
| RevokeCertificate (certId : string).

Definition call (msg : Msg) (c : Call) (st : State) : result (State * list Event) :=
  match c with
  | AddInstitution a => addInstitution msg a st
  | IssueCertificate certId n co g => issueCertificate msg certId n co g st
  | RevokeCertificate certId => revokeCertificate msg certId st
  end.

Definition execute (msg : Msg) (c : Call) (st : State) : State * list Event :=
  match call msg c st with
  | Ok r => r
  | Revert _ => (st, [])
  end.

Fixpoint run (txs : list (Msg * Call)) (st : State) : State * list Event :=
  match txs with
  | [] => (st, [])
  | (msg, c) :: rest =>
      let '(st1, log1) := execute msg c st in
      let '(st2, log2) := run rest st1 in
      (st2, (log1 ++ log2)%list)
  end.

Inductive reachable : State → Prop :=
| reachable_deploy msg : reachable (constructor msg)
| reachable_step st msg c :
    reachable st → reachable (execute msg c st).1.

(** Number of [CertificateRevoked certId] entries of an event log. *)
Definition is_revocation_of (certId : string) (e : Event) : bool :=
  match e with
  | CertificateRevoked c => bool_decide (c = certId)
  | CertificateIssued _ _ => false
  end.

Definition revocations (certId : string) (log : list Event) : nat :=
  length (filter (fun e => is_revocation_of certId e = true) log).

(** The invariant behind the one-way flag: a record marked revoked is a
    record that exists. *)
Definition revoked_exist (st : State) : Prop :=
  ∀ certId, isRevoked (cert_at st certId) = true → exists_ (cert_at st certId) = true.

End Registry.


(** ** The backend *)

Module Backend.

(** *** JavaScript strings

    A string is a sequence of code units below 256; [isSpace] is the part
    of the regular-expression class [\s] in that range. *)

Definition isSpace (c : ascii) : bool :=
  let n := N_of_ascii c in
  ((9 <=? n) && (n <=? 13) || (n =? 32) || (n =? 160))%N.

Fixpoint ltrim (s : string) : string :=
  match s with
  | EmptyString => EmptyString
  | String c rest => if isSpace c then ltrim rest else s
  end.

Fixpoint rtrim (s : string) : string :=
  match s with
  | EmptyString => EmptyString
  | String c rest =>
      match rtrim rest with
      | EmptyString => if isSpace c then EmptyString else String c EmptyString
      | kept => String c kept
      end
  end.

(** The [trim()] sanitizer of the validation chains. *)
Definition trim (s : string) : string := rtrim (ltrim s).

(** [s.includes(sub)] *)
Fixpoint includes (s sub : string) : bool :=
  String.prefix sub s ||
  match s with
  | EmptyString => false
  | String _ rest => includes rest sub
  end.

(** Template-literal interpolation of a non-negative integer. *)
Definition decimal (n : N) : string := NilEmpty.string_of_uint (N.to_uint n).

(** [!!v] for a nullable string column or field. *)
Definition truthy (v : option string) : bool :=
  match v with
  | Some s => negb (String.eqb s "")
  | None => false
  end.

(** [v || null] for a nullable string. *)
Definition orNull (v : option string) : option string :=
  if truthy v then v else None.

(** [s.toLowerCase()] on code units below 256: the letters A to Z, and
    the letters from U+00C0 to U+00DE, between which U+00D7, the
    multiplication sign, has no lower case. *)
Definition lowerChar (c : ascii) : ascii :=
  let n := N_of_ascii c in
  if ((65 <=? n) && (n <=? 90) ||
      (192 <=? n) && (n <=? 222) && negb (n =? 215))%N
  then ascii_of_N (n + 32) else c.

Fixpoint toLowerCase (s : string) : string :=
  match s with
  | EmptyString => EmptyString
  | String c rest => String (lowerChar c) (toLowerCase rest)
  end.

(** [Number(x)] for a [uint256]: the nearest double, ties to even.  Below
    2^53 it is the integer itself. *)
Definition Number (z : Z) : Z :=
  if (z <? 2 ^ 53)%Z then z
  else
    let e := (Z.log2 z - 52)%Z in
    let q := (z / 2 ^ e)%Z in
    let r := (z mod 2 ^ e)%Z in
    let half := (2 ^ (e - 1))%Z in
    let up := (half <? r)%Z || ((r =? half)%Z && Z.odd q) in
    ((if up then q + 1 else q) * 2 ^ e)%Z.

(** *** Errors, stores and effects *)

(** A thrown value: its [message], the [status] the error handler looks
    for, and the [code] of a [multer.MulterError]. *)
Record JsError := mkError {
  multerCode : option string;
  errStatus : option nat;
  message : string
}.

Definition Error (m : string) : JsError := mkError None None m.

(** A row of the [certificates] table. *)
Record LocalRecord := mkRow {
  id : N;
  certId : string;
  studentName : string;
  course : string;
  grade : string;
  issueDate : string;
  txHash : option string;
  documentPath : option string;
  documentOriginalName : option string;
  notes : option string;
  createdAt : string
}.

(** The table: rows by their [UNIQUE] column [certId], and the
    [AUTOINCREMENT] counter. *)
Record Database := mkDatabase {
  rows : gmap string LocalRecord;
  sequence : N
}.

(** The ledger, the database and the [uploads] directory (file name to
    content). *)
Record World := mkWorld {
  ledger : Registry.State;
  db : Database;
  uploads : gmap string string
}.

(** What a request does to the stores, in order. *)
Inductive Effect :=
| LedgerRead (certId : string)
| LedgerSubmitted (certId : string)
| LedgerRejected (certId : string)
| LedgerConfirmed (certId : string)
| FsWrite (name : string)
| FsRename (old new : string)
| FsUnlink (name : string)
| DbSelect (certId : string)
| DbInsert (certId : string)
| DbDelete (certId : string).

(** The writes of the local mirror: a row of the table, a document under
    its final name. *)
Definition isLocalWrite (e : Effect) : bool :=
  match e with
  | DbInsert _ | FsRename _ _ => true
  | _ => false
  end.

Record Outcome (A : Type) := mkOutcome {
  world : World;
  trace : list Effect;
  value : JsError + A
}.
Arguments mkOutcome {A} world trace value.
Arguments world {A} o.
Arguments trace {A} o.
Arguments value {A} o.

(** Handler code: reads and writes the stores, logs its effects, may throw. *)
Definition M (A : Type) : Type := World → Outcome A.

#[export] Instance M_ret : MRet M := fun A a w => mkOutcome w [] (inr a).

#[export] Instance M_bind : MBind M := fun A B k m w =>
  match m w with
  | mkOutcome w1 t1 (inl e) => mkOutcome w1 t1 (inl e)
  | mkOutcome w1 t1 (inr a) =>
      match k a w1 with
      | mkOutcome w2 t2 v => mkOutcome w2 (t1 ++ t2)%list v
      end
  end.

Definition throw {A} (e : JsError) : M A := fun w => mkOutcome w [] (inl e).

(** [try { m } catch (error) { h error }] *)
Definition try_catch {A} (m : M A) (h : JsError → M A) : M A := fun w =>
  match m w with
  | mkOutcome w1 t1 (inl e) =>
      match h e w1 with
      | mkOutcome w2 t2 v => mkOutcome w2 (t1 ++ t2)%list v
      end
  | mkOutcome w1 t1 (inr a) => mkOutcome w1 t1 (inr a)
  end.

Definition get : M World := fun w => mkOutcome w [] (inr w).
Definition put (w : World) : M unit := fun _ => mkOutcome w [] (inr tt).
Definition emit (e : Effect) : M unit := fun w => mkOutcome w [e] (inr tt).

(** *** [fs] on the [uploads] directory *)

Definition set_uploads (f : gmap string string → gmap string string) : M unit :=
  w ← get; put (mkWorld (ledger w) (db w) (f (uploads w))).

Definition existsSync (name : string) : M bool :=
  w ← get; mret (bool_decide (is_Some (uploads w !! name))).

Definition writeFile (name content : string) : M unit :=
  set_uploads (insert name content) ;; emit (FsWrite name).

Definition renameSync (old new : string) : M unit :=
  w ← get;
  match uploads w !! old with
  | None => throw (Error ("ENOENT: no such file or directory, rename " ++ old))
  | Some content =>
      set_uploads (fun fs => <[ new := content ]> (delete old fs)) ;;
      emit (FsRename old new)
  end.

Definition unlinkSync (name : string) : M unit :=
  w ← get;
  match uploads w !! name with
  | None => throw (Error ("ENOENT: no such file or directory, unlink " ++ name))
  | Some _ => set_uploads (delete name) ;; emit (FsUnlink name)
  end.

Definition readFileSync (name : string) : M string :=
  w ← get;
  match uploads w !! name with
  | None => throw (Error ("ENOENT: no such file or directory, open " ++ name))
  | Some content => mret content
  end.

(** *** The [certificates] table *)

(** [SELECT * FROM certificates WHERE certId = ?] *)
Definition db_get (cid : string) : M (option LocalRecord) :=
  w ← get; emit (DbSelect cid) ;; mret (rows (db w) !! cid).

(** [INSERT INTO certificates (...) VALUES (...)]; [certId] is [UNIQUE]. *)
Definition db_insert (cid name crs grd date : string)
    (tx doc docName : option string) (stamp : string) : M unit :=
  w ← get;
  match rows (db w) !! cid with
  | Some _ => throw (Error "UNIQUE constraint failed: certificates.certId")
  | None =>
      let rowid := (sequence (db w) + 1)%N in
      let row := mkRow rowid cid name crs grd date tx doc docName None stamp in
      put (mkWorld (ledger w)
                   (mkDatabase (<[ cid := row ]> (rows (db w))) rowid)
                   (uploads w)) ;;
      emit (DbInsert cid)
  end.

(** [DELETE FROM certificates WHERE certId = ?] *)
Definition db_delete (cid : string) : M unit :=
  w ← get;
  put (mkWorld (ledger w)
               (mkDatabase (delete cid (rows (db w))) (sequence (db w)))
               (uploads w)) ;;
  emit (DbDelete cid).

(** *** The ledger client *)

(** Whether a remote call gets through, and the text of the error when it
    does not (unreachable node, timeout). *)
Inductive Link :=
| Online
| Offline (failure : string).

(** What the chain and its client contribute to one request: the state of
    the connection when the call is sent and when its confirmation is
    awaited, the timestamp of the block, the hash of the transaction, and,
    should the call revert, the client's own text around the reason string
    of the failed [require]: what precedes the reason and what follows it
    (the action, the call data, the transaction). *)
Record Chain := mkChain {
  rpc : Link;
  confirmation : Link;
  blockTimestamp : Z;
  hash : string;
  revertPrefix : string;
  revertDetails : string → string
}.

(** The message of the error the client raises for a reverted call: it
    carries the reason string inside the client's own text. *)
Definition callException (ch : Chain) (reason : string) : string :=
  revertPrefix ch ++ reason ++ revertDetails ch reason.

(** Configuration and the collaborators whose output is only passed on:
    the path and QR libraries and the PDF code.

    [generateCertificatePDF] and [stampPages] stand for the drawing code of
    the two PDF routes; the PDF library throws on text its fonts cannot
    encode and on bytes it cannot parse, so either returns the error
    thrown or the bytes of the document. *)
Record Services := mkServices {
  FRONTEND_URL : string;
  wallet : Registry.address;
  development : bool;
  extname : string → string;
  toDataURL : string → string;
  generateCertificatePDF :
    string → string → string → string → Z → option string → string → bool →
    JsError + string;
  stampPages : string → string → string → JsError + string
}.

Section Routes.

Context (sv : Services).

(** [contract.verifyCertificate(certId)] *)
Definition contract_verifyCertificate (ch : Chain) (cid : string)
  : M (string * string * string * Z * bool) :=
  match rpc ch with
  | Offline failure => throw (Error failure)
  | Online =>
      w ← get;
      emit (LedgerRead cid) ;;
      match Registry.verifyCertificate cid (ledger w) with
      | Registry.Ok r => mret r
      | Registry.Revert reason =>
          throw (Error (callException ch reason))
      end
  end.

(** [contract.issueCertificate(certId, studentName, course, grade)]: the
    transaction is signed by the process wallet. *)
Definition contract_issueCertificate (ch : Chain) (cid name crs grd : string)
  : M string :=
  match rpc ch with
  | Offline failure => throw (Error failure)
  | Online =>
      w ← get;
      let msg := Registry.mkMsg (wallet sv) (blockTimestamp ch) in
      match Registry.issueCertificate msg cid name crs grd (ledger w) with
      | Registry.Ok (st, _) =>
          put (mkWorld st (db w) (uploads w)) ;;
          emit (LedgerSubmitted cid) ;;
          mret (hash ch)
      | Registry.Revert reason =>
          emit (LedgerRejected cid) ;;
          throw (Error (callException ch reason))
      end
  end.

(** [tx.wait()].  The transaction took effect when the node accepted it;
    a failure here is a confirmation that never arrived. *)
Definition tx_wait (ch : Chain) (cid : string) : M unit :=
  match confirmation ch with
  | Offline failure => throw (Error failure)
  | Online => emit (LedgerConfirmed cid)
  end.

Definition verifyUrl (cid : string) : string :=
  FRONTEND_URL sv ++ "/verify/" ++ cid.

Definition generateQRCode (cid : string) : string := toDataURL sv (verifyUrl cid).

(** *** Requests and responses *)

(** [req.file] as [multer] receives it. *)
Record Upload := mkUpload {
  originalname : string;
  mimetype : string;
  content : string
}.

(** [req.file] after [multer] stored it under [uploads]. *)
Record StoredFile := mkStoredFile {
  path : string;
  storedOriginalname : string
}.

(** The text fields of [req.body]; a field the client left out reads as
    the empty string in the validation chain. *)
Record IssueBody := mkIssueBody {
  bodyStudentName : string;
  bodyCourse : string;
  bodyGrade : string
}.

Record IssueRequest := mkIssueRequest {
  body : IssueBody;
  document : option Upload
}.

(** The clock readings and the chain behind one issuance: [Date.now()] in
    the [multer] file name and in the handler, [new Date().toISOString()],
    and [CURRENT_TIMESTAMP]. *)
Record IssueEnv := mkIssueEnv {
  uploadClock : N;
  clock : N;
  isoDate : string;
  sqlTimestamp : string;
  chain : Chain
}.

Record FieldError := mkFieldError {
  field : string;
  fieldMessage : string
}.

Inductive Payload :=
| ValidationFailed (details : list FieldError)
| ErrorMessage (error : string)
| InternalServerError (detail : option string)
| Issued (cid : string) (tx : string) (hasDocument : bool) (qrCode url : string)
| NotExists
| Verified (name crs grd : string) (date : Z) (revoked hasDocument : bool)
    (tx : option string) (qrCode url : string)
| Attachment (filename bytes : string)
| Deleted.

Record Response := mkResponse {
  status : nat;
  payload : Payload
}.

(** A response that carries a generated or stored file. *)
Definition isArtifact (r : Response) : bool :=
  match payload r with
  | Attachment _ _ => true
  | _ => false
  end.

Definition json (p : Payload) : Response := mkResponse 200 p.

(** *** Middleware *)

Definition allowedTypes : list string :=
  ["application/pdf"; "image/png"; "image/jpeg"].

Definition fileSizeLimit : N := 10 * 1024 * 1024.

(** The [filename] callback of the disk storage. *)
Definition tempName (now : N) (f : Upload) : string :=
  "temp_" ++ decimal now ++ extname sv (originalname f).

(** [upload.single('document')]: the file filter, the size limit, and the
    disk storage that writes [temp_<Date.now()><ext>] into [uploads]. *)
Definition upload_single (now : N) (file : option Upload) : M (option StoredFile) :=
  match file with
  | None => mret None
  | Some f =>
      if negb (bool_decide (mimetype f ∈ allowedTypes)) then
        throw (Error "Only PDF, PNG, and JPEG files are allowed")
      else if (fileSizeLimit <? N.of_nat (String.length (content f)))%N then
        throw (mkError (Some "LIMIT_FILE_SIZE") None "File too large")
      else
        let name := tempName now f in
        writeFile name (content f) ;;
        mret (Some (mkStoredFile name (originalname f)))
  end.

(** Whether [multer] lets the request through: no file, or a file of an
    allowed type within the size limit. *)
Definition uploadAccepted (file : option Upload) : bool :=
  match file with
  | None => true
  | Some f =>
      bool_decide (mimetype f ∈ allowedTypes) &&
      negb (fileSizeLimit <? N.of_nat (String.length (content f)))%N
  end.

Definition notEmpty (v : string) : bool := negb (String.eqb v "").

Definition isLength (min max : nat) (v : string) : bool :=
  ((min <=? String.length v) && (String.length v <=? max))%nat.

(** One chain [body(f).trim().notEmpty().withMessage(m1).isLength({min,
    max}).withMessage(m2)] on the sanitized value. *)
Definition checkField (f v m1 : string) (min max : nat) (m2 : string)
  : list FieldError :=
  ((if notEmpty v then [] else [mkFieldError f m1]) ++
   (if isLength min max v then [] else [mkFieldError f m2]))%list.

(** The [trim()] sanitizers rewrite [req.body]. *)
Definition sanitize (b : IssueBody) : IssueBody :=
  mkIssueBody (trim (bodyStudentName b)) (trim (bodyCourse b)) (trim (bodyGrade b)).

(** [validationResult(req).array()] for the chains of the issue route. *)
Definition validationResult (b : IssueBody) : list FieldError :=
  (checkField "studentName" (bodyStudentName b)
     "Student name is required" 2 100 "Student name must be 2-100 characters" ++
   checkField "course" (bodyCourse b)
     "Course is required" 2 100 "Course must be 2-100 characters" ++
   checkField "grade" (bodyGrade b)
     "Grade is required" 1 50 "Grade must be 1-50 characters")%list.

Definition errorHandler (err : JsError) : M Response :=
  match multerCode err with
  | Some code =>
      if String.eqb code "LIMIT_FILE_SIZE" then
        mret (mkResponse 400 (ErrorMessage "File too large. Maximum size is 10MB."))
      else
        mret (mkResponse 400 (ErrorMessage ("Upload error: " ++ message err)))
  | None =>
      match errStatus err with
      | Some st => mret (mkResponse st (ErrorMessage (message err)))
      | None =>
          mret (mkResponse 500
                  (InternalServerError
                     (if development sv then Some (message err) else None)))
      end
  end.

(** The [Authorization] header as [jwt.verify] judges it. *)
Inductive Credentials :=
| NoToken
| InvalidToken
| ValidToken.

Definition authenticateToken (c : Credentials) (next : M Response) : M Response :=
  match c with
  | NoToken => mret (mkResponse 401 (ErrorMessage "Access token required"))
  | InvalidToken => mret (mkResponse 403 (ErrorMessage "Invalid or expired token"))
  | ValidToken => next
  end.

(** *** [POST /api/certificates/issue] *)

Definition newCertId (env : IssueEnv) : string := "CERT" ++ decimal (clock env).

Definition issueHandler (env : IssueEnv) (b : IssueBody) (file : option StoredFile)
  : M Response :=
  try_catch
    (let cid := newCertId env in
     tx ← contract_issueCertificate (chain env) cid
            (bodyStudentName b) (bodyCourse b) (bodyGrade b);
     tx_wait (chain env) cid ;;
     docPath ←
       match file with
       | Some f =>
           let newFilename := cid ++ extname sv (storedOriginalname f) in
           renameSync (path f) newFilename ;;
           mret (Some newFilename)
       | None => mret None
       end;
     let qrCode := generateQRCode cid in
     db_insert cid (bodyStudentName b) (bodyCourse b) (bodyGrade b)
       (isoDate env) (Some tx) docPath (orNull (storedOriginalname <$> file))
       (sqlTimestamp env) ;;
     mret (json (Issued cid tx (truthy docPath) qrCode (verifyUrl cid))))
    (fun error =>
       match file with
       | Some f =>
           present ← existsSync (path f);
           if present : bool then unlinkSync (path f) else mret tt
       | None => mret tt
       end ;;
       throw error).

Definition issueRoute (env : IssueEnv) (req : IssueRequest) : M Response :=
  try_catch
    (file ← upload_single (uploadClock env) (document req);
     let b := sanitize (body req) in
     match validationResult b with
     | [] => issueHandler env b file
     | errors => mret (mkResponse 400 (ValidationFailed errors))
     end)
    errorHandler.

(** *** [GET /api/certificates/verify/:certId] *)

Definition notFoundText : string := "Certificate does not exist".

Definition verifyRoute (ch : Chain) (cid : string) : M Response :=
  try_catch
    (result ← contract_verifyCertificate ch cid;
     let '(name, crs, grd, date, revoked) := result in
     dbCert ← db_get cid;
     let qrCode := generateQRCode cid in
     mret (json (Verified name crs grd (Number date) revoked
                   (truthy (dbCert ≫= documentPath))
                   (orNull (dbCert ≫= txHash))
                   qrCode (verifyUrl cid))))
    (fun error =>
       if includes (message error) notFoundText then
         mret (json NotExists)
       else
         mret (mkResponse 500 (ErrorMessage (message error)))).

(** *** [GET /api/certificates/:certId/pdf] *)

Definition revokedText : string := "Certificate has been revoked".

Definition pdfRoute (ch : Chain) (logo : bool) (cid : string) : M Response :=
  try_catch
    (result ← contract_verifyCertificate ch cid;
     let '(name, crs, grd, date, revoked) := result in
     if revoked : bool then
       mret (mkResponse 400 (ErrorMessage revokedText))
     else
       dbCert ← db_get cid;
       let qrCode := generateQRCode cid in
       match generateCertificatePDF sv cid name crs grd (Number date * 1000)
               (dbCert ≫= txHash) qrCode logo with
       | inl thrown => throw thrown
       | inr pdfBytes =>
           mret (json (Attachment (cid ++ "_certificate.pdf") pdfBytes))
       end)
    (fun error =>
       if includes (message error) notFoundText then
         mret (mkResponse 404 (ErrorMessage "Certificate not found"))
       else
         mret (mkResponse 500 (ErrorMessage (message error)))).

(** *** [GET /api/certificates/download/:certId] *)

Definition downloadRoute (ch : Chain) (cid : string) : M Response :=
  try_catch
    (result ← contract_verifyCertificate ch cid;
     let '(_, _, _, _, revoked) := result in
     if revoked : bool then
       mret (mkResponse 400 (ErrorMessage revokedText))
     else
       dbCert ← db_get cid;
       match dbCert ≫= documentPath with
       | None =>
           mret (mkResponse 404 (ErrorMessage "No document found for this certificate"))
       | Some doc =>
           if negb (truthy (Some doc)) then
             mret (mkResponse 404 (ErrorMessage "No document found for this certificate"))
           else
             present ← existsSync doc;
             if negb present then
               mret (mkResponse 404 (ErrorMessage "Document file not found"))
             else
               let ext := toLowerCase (extname sv doc) in
               if String.eqb ext ".pdf" then
                 pdfBytes ← readFileSync doc;
                 let qrDataUrl := generateQRCode cid in
                 match stampPages sv pdfBytes cid qrDataUrl with
                 | inl thrown => throw thrown
                 | inr stampedPdfBytes =>
                     mret (json (Attachment ("stamped_" ++ cid ++ ".pdf")
                                   stampedPdfBytes))
                 end
               else
                 (* res.sendFile(filePath) *)
                 bytes ← readFileSync doc;
                 mret (json (Attachment (cid ++ ext) bytes))
       end)
    (fun error =>
       if includes (message error) notFoundText then
         mret (mkResponse 404 (ErrorMessage "Certificate not found on blockchain"))
       else
         mret (mkResponse 500 (ErrorMessage (message error)))).

(** *** [DELETE /api/admin/certificates/:certId] *)

Definition deleteRoute (who : Credentials) (cid : string) : M Response :=
  authenticateToken who
    (try_catch
       (dbCert ← db_get cid;
        match dbCert with
        | None => mret (mkResponse 404 (ErrorMessage "Certificate not found"))
        | Some row =>
            (if truthy (documentPath row) then
               let doc := default "" (documentPath row) in
               present ← existsSync doc;
               if present : bool then unlinkSync doc else mret tt
             else mret tt) ;;
            db_delete cid ;;
            mret (json Deleted)
        end)
       (fun error => mret (mkResponse 500 (ErrorMessage (message error))))).

End Routes.

End Backend.


(** ** The administrative routes *)

Module Admin.

Import Backend.

(** The bodies of the successful answers of these routes. *)
Inductive Success :=
| RevokedOk (tx : string)
| Updated (certificate : option LocalRecord)
| Stats (totalCertificates validCertificates revokedCertificates
         documentsUploaded : nat)
| LoggedIn (token user : string).

(** An answer: one of the error shapes of [Backend.Response], or status 200
    with a [Success] body. *)
Definition Reply : Type := Response + Success.

Definition refuse (code : nat) (error : string) : Reply :=
  inl (mkResponse code (ErrorMessage error)).

(** [authenticateToken] in front of a handler of these routes. *)
Definition authenticated (c : Credentials) (next : M Reply) : M Reply :=
  match c with
  | NoToken => mret (refuse 401 "Access token required")
  | InvalidToken => mret (refuse 403 "Invalid or expired token")
  | ValidToken => next
  end.

Section AdminRoutes.

Context (sv : Services).

(** [contract.revokeCertificate(certId)], signed by the process wallet. *)
Definition contract_revokeCertificate (ch : Chain) (cid : string) : M string :=
  match rpc ch with
  | Offline failure => throw (Error failure)
  | Online =>
      w ← get;
      let msg := Registry.mkMsg (wallet sv) (blockTimestamp ch) in
      match Registry.revokeCertificate msg cid (ledger w) with
      | Registry.Ok (st, _) =>
          put (mkWorld st (db w) (uploads w)) ;;
          emit (LedgerSubmitted cid) ;;
          mret (hash ch)
      | Registry.Revert reason =>
          emit (LedgerRejected cid) ;;
          throw (Error (callException ch reason))
      end
  end.

(** *** [POST /api/admin/certificates/:certId/revoke]

    [reading] is the chain as the preliminary [verifyCertificate] call
    finds it, [writing] as the transaction finds it. *)

Definition alreadyRevokedText : string := "Already revoked".

Definition revokeRoute (who : Credentials) (reading writing : Chain) (cid : string)
  : M Reply :=
  authenticated who
    (try_catch
       (_ ← contract_verifyCertificate reading cid;
        tx ← contract_revokeCertificate writing cid;
        tx_wait writing cid ;;
        mret (inr (RevokedOk tx)))
       (fun error =>
          if includes (message error) notFoundText then
            mret (refuse 404 "Certificate not found on blockchain")
          else if includes (message error) alreadyRevokedText then
            mret (refuse 400 "Certificate is already revoked")
          else
            mret (refuse 500 (message error)))).

(** *** [PUT /api/admin/certificates/:certId] *)

(** [req.body.notes], when the client sent it, and [req.file]. *)
Record UpdateRequest := mkUpdateRequest {
  notesField : option string;
  replacement : option Upload
}.

(** [UPDATE certificates SET ... WHERE certId = ?] for the columns the
    handler collected: [notes], and [documentPath] with
    [documentOriginalName]. *)
Definition db_update (cid : string) (newNotes : option string)
    (newDocument : option (string * string)) : M unit :=
  w ← get;
  match rows (db w) !! cid with
  | None => mret tt
  | Some row =>
      let updated :=
        mkRow (id row) (certId row) (studentName row) (course row) (grade row)
          (issueDate row) (txHash row)
          (match newDocument with
           | Some (name, _) => Some name
           | None => documentPath row
           end)
          (match newDocument with
           | Some (_, original) => Some original
           | None => documentOriginalName row
           end)
          (match newNotes with
           | Some text => Some text
           | None => notes row
           end)
          (createdAt row) in
      put (mkWorld (ledger w)
                   (mkDatabase (<[ cid := updated ]> (rows (db w))) (sequence (db w)))
                   (uploads w))
  end.

Definition updateHandler (cid : string) (req : UpdateRequest)
    (file : option StoredFile) : M Reply :=
  try_catch
    (dbCert ← db_get cid;
     match dbCert with
     | None => mret (refuse 404 "Certificate not found")
     | Some row =>
         newDocument ←
           match file with
           | Some f =>
               (if truthy (documentPath row) then
                  let oldPath := default "" (documentPath row) in
                  present ← existsSync oldPath;
                  if present : bool then unlinkSync oldPath else mret tt
                else mret tt) ;;
               let newFilename := cid ++ extname sv (storedOriginalname f) in
               renameSync (path f) newFilename ;;
               mret (Some (newFilename, storedOriginalname f))
           | None => mret None
           end;
         (match notesField req, newDocument with
          | None, None => mret tt
          | newNotes, _ => db_update cid newNotes newDocument
          end) ;;
         updatedCert ← db_get cid;
         mret (inr (Updated updatedCert))
     end)
    (fun error => mret (refuse 500 (message error))).

Definition updateRoute (who : Credentials) (now : N) (cid : string)
    (req : UpdateRequest) : M Reply :=
  authenticated who
    (try_catch
       (file ← upload_single sv now (replacement req);
        updateHandler cid req file)
       (fun error => r ← errorHandler sv error; mret (inl r))).

(** *** [GET /api/admin/stats] *)

(** [SELECT * FROM certificates] *)
Definition db_all : M (list LocalRecord) :=
  w ← get; mret (map_to_list (rows (db w))).*2.

(** The loop over the rows: a certificate counts as revoked or valid by
    what the ledger answers for it and is skipped when the call throws.
    [net] gives the chain as each call finds it. *)
Fixpoint tally (net : string → Chain) (certs : list LocalRecord)
    (revokedCount validCount : nat) : M (nat * nat) :=
  match certs with
  | [] => mret (revokedCount, validCount)
  | cert :: rest =>
      counts ←
        try_catch
          (result ← contract_verifyCertificate (net (certId cert)) (certId cert);
           let '(_, _, _, _, revoked) := result in
           if revoked : bool then mret (S revokedCount, validCount)
           else mret (revokedCount, S validCount))
          (fun _ => mret (revokedCount, validCount));
      tally net rest counts.1 counts.2
  end.

(** What the loop learns about a row: [Some revoked] when the ledger
    answers for its identifier, [None] when the call throws (connection
    down, or no such certificate on the ledger). *)
Definition standing (net : string → Chain) (st : Registry.State)
    (cert : LocalRecord) : option bool :=
  match rpc (net (certId cert)) with
  | Offline _ => None
  | Online =>
      if Registry.exists_ (Registry.cert_at st (certId cert))
      then Some (Registry.isRevoked (Registry.cert_at st (certId cert)))
      else None
  end.

Definition statsRoute (who : Credentials) (net : string → Chain) : M Reply :=
  authenticated who
    (try_catch
       (allCerts ← db_all;
        counts ← tally net allCerts 0 0;
        mret (inr (Stats (length allCerts) counts.2 counts.1
                     (length (filter (fun c => truthy (documentPath c) = true)
                                allCerts)))))
       (fun error => mret (refuse 500 (message error)))).

End AdminRoutes.

(** *** [POST /api/auth/login] *)

(** The configured administrator and the token issuer ([jwt.sign] with the
    process secret). *)
Record Accounts := mkAccounts {
  ADMIN_USERNAME : string;
  ADMIN_PASSWORD : string;
  sign : string → string
}.

(** [req.body]; a field the client left out reads as the empty string. *)
Record LoginBody := mkLoginBody {
  username : string;
  password : string
}.

(** The chains [body('username').trim().notEmpty()] and
    [body('password').notEmpty()]; only the user name is trimmed. *)
Definition loginValidation (b : LoginBody) : list FieldError :=
  ((if notEmpty (trim (username b)) then []
    else [mkFieldError "username" "Username is required"]) ++
   (if notEmpty (password b) then []
    else [mkFieldError "password" "Password is required"]))%list.

(** The validation chains, [handleValidationErrors] and the handler. *)
Definition loginHandler (acc : Accounts) (b : LoginBody) : Reply :=
  match loginValidation b with
  | [] =>
      let user := trim (username b) in
      if String.eqb user (ADMIN_USERNAME acc) &&
         String.eqb (password b) (ADMIN_PASSWORD acc)
      then inr (LoggedIn (sign acc user) user)
      else refuse 401 "Invalid credentials"
  | errors => inl (mkResponse 400 (ValidationFailed errors))
  end.

(** **** Rate limiting

    [rateLimit({ windowMs, max, message, skipSuccessfulRequests })] keeps a
    count of hits for each client address.  A request adds one hit; when
    the count then exceeds [max], the limiter answers status 429 with
    [message] as the body and the rest of the route does not run.  With
    [skipSuccessfulRequests] the hit is taken back when the answer has a
    status below 400.  When a window of [windowMs] ends the store forgets
    the count; a route below takes the count the store holds for the
    client when the request arrives and returns the count it leaves. *)
Record RateLimit := mkRateLimit {
  max : nat;
  limitMessage : string;
  skipSuccessfulRequests : bool
}.

Inductive Limited (A : Type) : Type :=
| TooManyRequests (message : string)
| Passed (answer : A).

Arguments TooManyRequests {A} message.
Arguments Passed {A} answer.

Definition rateLimit {A : Type} (cfg : RateLimit) (successful : A → bool)
    (hits : nat) (next : A) : Limited A * nat :=
  let totalHits := S hits in
  if (max cfg <? totalHits)%nat then
    (TooManyRequests (limitMessage cfg), totalHits)
  else
    (Passed next,
     if skipSuccessfulRequests cfg && successful next then hits else totalHits).

Definition limiter : RateLimit :=
  mkRateLimit 100 "Too many requests from this IP, please try again later." false.

Definition authLimiter : RateLimit :=
  mkRateLimit 5 "Too many login attempts, please try again later." true.

(** [res.statusCode < 400] *)
Definition successful (r : Reply) : bool :=
  match r with
  | inl refusal => (status refusal <? 400)%nat
  | inr _ => true
  end.

(** The route as declared: [authLimiter] in front of the validation and
    the handler. *)
Definition loginRoute (acc : Accounts) (hits : nat) (b : LoginBody)
  : Limited Reply * nat :=
  rateLimit authLimiter successful hits (loginHandler acc b).

(** The counts the two limiters hold for one client: [limiter], mounted
    on [/api/] in front of every route, and [authLimiter]. *)
Record Hits := mkHits {
  apiHits : nat;
  loginHits : nat
}.

(** A request to [POST /api/auth/login] as the application serves it:
    [app.use('/api/', limiter)] comes first, then the route. *)
Definition loginRequest (acc : Accounts) (h : Hits) (b : LoginBody)
  : Limited Reply * Hits :=
  match rateLimit limiter (fun _ : unit => false) (apiHits h) tt with
  | (TooManyRequests refusal, api) =>
      (TooManyRequests refusal, mkHits api (loginHits h))
  | (Passed _, api) =>
      let '(answer, login) := loginRoute acc (loginHits h) b in
      (answer, mkHits api login)
  end.

End Admin.


(** ** Sample data *)

Module Sample.

Import Registry.

Definition institution : Msg := mkMsg 7%N 1700000000%Z.

Definition outsider : Msg := mkMsg 9%N 1700000050%Z.

Definition deployed : State := constructor institution.

Definition issueAda : Call :=
  IssueCertificate "CERT1700000000123" "Ada Lovelace" "Computer Science" "A".

Definition issued : State := (execute institution issueAda deployed).1.

Definition revoked : State :=
  (execute institution (RevokeCertificate "CERT1700000000123") issued).1.

(** [path.extname] for a file name without directory separators: the
    text from the last dot on, and nothing when there is no dot, when the
    only dot is the first character, or for the name "..". *)
Fixpoint fromLastDot (s : string) : option string :=
  match s with
  | EmptyString => None
  | String c rest =>
      match fromLastDot rest with
      | Some ext => Some ext
      | None => if Ascii.eqb c "."%char then Some s else None
      end
  end.

Definition extname (name : string) : string :=
  match name with
  | EmptyString => EmptyString
  | String _ rest =>
      if String.eqb name ".." then EmptyString
      else default EmptyString (fromLastDot rest)
  end.

(** Stand-ins for the PDF code: the certificate cannot be drawn when a
    field holds a control character, and a document is stamped only when
    it has a PDF header and an end-of-file marker. *)
Fixpoint printable (s : string) : bool :=
  match s with
  | EmptyString => true
  | String c rest => (32 <=? N_of_ascii c)%N && printable rest
  end.

Definition services : Backend.Services :=
  Backend.mkServices "http://localhost:3000" 7%N false
    extname
    (fun url => "data:image/png;base64," ++ url)
    (fun cid name crs grd date tx qr logo =>
       if printable name && printable crs && printable grd
       then inr ("%PDF " ++ cid ++ " " ++ name)
       else inl (Backend.Error "WinAnsi cannot encode a control character"))
    (fun bytes cid qr =>
       if String.prefix "%PDF-" bytes && Backend.includes bytes "%%EOF"
       then inr (bytes ++ " VERIFIED: " ++ cid)
       else inl (Backend.Error "Failed to parse PDF document")).

(** The client's wording of a reverted call: the reason in quotation marks
    after [execution reverted: ], and details in brackets. *)
Definition quote : string := String (ascii_of_N 34) EmptyString.

Definition revertPrefix : string := "execution reverted: " ++ quote.

Definition revertDetails (reason : string) : string :=
  quote ++ " (action=" ++ quote ++ "estimateGas" ++ quote ++
  ", reason=" ++ quote ++ reason ++ quote ++ ", code=CALL_EXCEPTION)".

Definition online : Backend.Chain :=
  Backend.mkChain Backend.Online Backend.Online 1700000000%Z "0xabc"
    revertPrefix revertDetails.

Definition offline : Backend.Chain :=
  Backend.mkChain (Backend.Offline "request timeout") Backend.Online
    1700000000%Z "0xabc" revertPrefix revertDetails.

(** A clock that yields the identifier of the certificate issued above. *)
Definition env : Backend.IssueEnv :=
  Backend.mkIssueEnv 1700000000100 1700000000123
    "2023-11-14T22:13:20.123Z" "2023-11-14 22:13:20" online.

(** A later clock, whose identifier is not on the ledger yet. *)
Definition laterEnv : Backend.IssueEnv :=
  Backend.mkIssueEnv 1700000000900 1700000000999
    "2023-11-14T22:13:20.999Z" "2023-11-14 22:13:20" online.

Definition scan : Backend.Upload :=
  Backend.mkUpload "diploma.pdf" "application/pdf" "%PDF-1.4 diploma".

Definition notes : Backend.Upload :=
  Backend.mkUpload "notes.txt" "text/plain" "remember the seal".

Definition request : Backend.IssueRequest :=
  Backend.mkIssueRequest
    (Backend.mkIssueBody "  Ada Lovelace " "Computer Science" "A") (Some scan).

Definition shortName : Backend.IssueRequest :=
  Backend.mkIssueRequest
    (Backend.mkIssueBody " A " "Computer Science" "A") (Some notes).

Definition row : Backend.LocalRecord :=
  Backend.mkRow 1 "CERT1700000000123" "Ada Lovelace" "Computer Science" "A"
    "2023-11-14T22:13:20.123Z" (Some "0xabc") (Some "CERT1700000000123.pdf")
    (Some "diploma.pdf") None "2023-11-14 22:13:20".

(** The ledger holds the certificate; the local stores are empty. *)
Definition ledgerOnly : Backend.World :=
  Backend.mkWorld issued (Backend.mkDatabase ∅ 0) ∅.

(** The certificate with its row and its document. *)
Definition mirrored : Backend.World :=
  Backend.mkWorld issued
    (Backend.mkDatabase {[ "CERT1700000000123" := row ]} 1)
    {[ "CERT1700000000123.pdf" := "%PDF-1.4 diploma" ]}.

(** The same after revocation on the ledger. *)
Definition mirroredRevoked : Backend.World :=
  Backend.mkWorld revoked
    (Backend.mkDatabase {[ "CERT1700000000123" := row ]} 1)
    {[ "CERT1700000000123.pdf" := "%PDF-1.4 diploma" ]}.

End Sample.


(** ** Sample data for the administrative routes *)

Module AdminSample.

(** A chain that accepts the transaction and never confirms it. *)
Definition unconfirmed : Backend.Chain :=
  Backend.mkChain Backend.Online (Backend.Offline "timeout exceeded")
    1700000000%Z "0xabc" Sample.revertPrefix Sample.revertDetails.

Definition unconfirmedEnv : Backend.IssueEnv :=
  Backend.mkIssueEnv 1700000000900 1700000000999
    "2023-11-14T22:13:20.999Z" "2023-11-14 22:13:20" unconfirmed.

Definition photo : Backend.Upload :=
  Backend.mkUpload "diploma.png" "image/png" "PNG bytes".

Definition replace : Admin.UpdateRequest :=
  Admin.mkUpdateRequest (Some "reissued") (Some photo).

(** An issuance request with the photograph as its document. *)
Definition photoRequest : Backend.IssueRequest :=
  Backend.mkIssueRequest
    (Backend.mkIssueBody "  Ada Lovelace " "Computer Science" "A") (Some photo).

Definition accounts : Admin.Accounts :=
  Admin.mkAccounts "registrar" "s3cret" (fun user => "jwt:" ++ user).

(** The services with the key of an address that is not an institution. *)
Definition stranger : Backend.Services :=
  Backend.mkServices (Backend.FRONTEND_URL Sample.services) 9%N
    (Backend.development Sample.services) (Backend.extname Sample.services)
    (Backend.toDataURL Sample.services)
    (Backend.generateCertificatePDF Sample.services)
    (Backend.stampPages Sample.services).

End AdminSample.


(** ** Properties of the contract *)

Module RegistryFacts.

Import Registry.

Ltac unfold_contract :=
  unfold execute, call, issueCertificate, revokeCertificate, addInstitution,
    verifyCertificate, onlyAuthorized, onlyAdmin, require in *.

Lemma cert_at_insert_eq certs auth adm certId c :
  cert_at (mkState (<[ certId := c ]> certs) auth adm) certId = c.
Proof. unfold cert_at; simpl. by rewrite lookup_insert_eq. Qed.

Lemma cert_at_insert_ne certs auth adm certId other c :
  other ≠ certId →
  cert_at (mkState (<[ certId := c ]> certs) auth adm) other
  = cert_at (mkState certs auth adm) other.
Proof. intros Hne. unfold cert_at; simpl. by rewrite lookup_insert_ne. Qed.

Lemma cert_at_eta st certId :
  cert_at (mkState (certificates st) (authorizedInstitutions st) (admin st)) certId
  = cert_at st certId.
Proof. reflexivity. Qed.

(** When [issueCertificate] goes through, and what it leaves. *)
Lemma issueCertificate_Ok msg certId n c g st st' log :
  issueCertificate msg certId n c g st = Ok (st', log) →
  authorized st (sender msg) = true ∧
  exists_ (cert_at st certId) = false ∧
  st' = mkState (<[ certId := mkCertificate n c g (timestamp msg) false true ]>
                   (certificates st))
                (authorizedInstitutions st) (admin st) ∧
  log = [CertificateIssued certId n].
Proof.
  unfold_contract.
  destruct (authorized st (sender msg)); simpl; [|discriminate].
  destruct (exists_ (cert_at st certId)); simpl; [discriminate|].
  intros [= <- <-]. auto.
Qed.

Lemma issueCertificate_succeeds msg certId n c g st :
  authorized st (sender msg) = true →
  exists_ (cert_at st certId) = false →
  ∃ st', issueCertificate msg certId n c g st = Ok (st', [CertificateIssued certId n]).
Proof.
  intros Ha He. unfold_contract. rewrite Ha; simpl. rewrite He; simpl. eauto.
Qed.

(** When [revokeCertificate] goes through, and what it leaves. *)
Lemma revokeCertificate_Ok msg certId st st' log :
  revokeCertificate msg certId st = Ok (st', log) →
  authorized st (sender msg) = true ∧
  exists_ (cert_at st certId) = true ∧
  isRevoked (cert_at st certId) = false ∧
  st' = (let c := cert_at st certId in
         mkState (<[ certId := mkCertificate (studentName c) (course c) (grade c)
                                             (issueDate c) true (exists_ c) ]>
                    (certificates st))
                 (authorizedInstitutions st) (admin st)) ∧
  log = [CertificateRevoked certId].
Proof.
  unfold_contract.
  destruct (authorized st (sender msg)); simpl; [|discriminate].
  destruct (exists_ (cert_at st certId)) eqn:He; simpl; [|discriminate].
  destruct (isRevoked (cert_at st certId)) eqn:Hr; simpl; [discriminate|].
  intros [= <- <-]. auto.
Qed.

Lemma revokeCertificate_succeeds msg certId st :
  authorized st (sender msg) = true →
  exists_ (cert_at st certId) = true →
  isRevoked (cert_at st certId) = false →
  ∃ st', revokeCertificate msg certId st = Ok (st', [CertificateRevoked certId]).
Proof.
  intros Ha He Hr. unfold_contract. rewrite Ha; simpl. rewrite He; simpl.
  rewrite Hr; simpl. eauto.
Qed.

Lemma verifyCertificate_Ok certId st r :
  verifyCertificate certId st = Ok r →
  exists_ (cert_at st certId) = true ∧
  r = (studentName (cert_at st certId), course (cert_at st certId),
       grade (cert_at st certId), issueDate (cert_at st certId),
       isRevoked (cert_at st certId)).
Proof.
  unfold_contract. destruct (exists_ (cert_at st certId)); simpl; [|discriminate].
  intros [= <-]. auto.
Qed.

Lemma verifyCertificate_exists certId st :
  exists_ (cert_at st certId) = true →
  verifyCertificate certId st
  = Ok (studentName (cert_at st certId), course (cert_at st certId),
        grade (cert_at st certId), issueDate (cert_at st certId),
        isRevoked (cert_at st certId)).
Proof. intros He. unfold_contract. by rewrite He. Qed.

Lemma verify_after_issue msg certId n c g st st' log :
  issueCertificate msg certId n c g st = Ok (st', log) →
  verifyCertificate certId st' = Ok (n, c, g, timestamp msg, false).
Proof.
  intros (_ & _ & -> & _)%issueCertificate_Ok.
  rewrite verifyCertificate_exists; rewrite cert_at_insert_eq; done.
Qed.

Lemma verifyCertificate_missing certId st :
  exists_ (cert_at st certId) = false →
  verifyCertificate certId st = Revert "Certificate does not exist".
Proof. intros He. unfold_contract. by rewrite He. Qed.

(** The effect of one transaction on one record. *)
Lemma execute_cases msg c st certId :
  let st' := (execute msg c st).1 in
  let log := (execute msg c st).2 in
  (cert_at st' certId = cert_at st certId ∧ revocations certId log = 0) ∨
  (exists_ (cert_at st certId) = false ∧ isRevoked (cert_at st' certId) = false ∧
   exists_ (cert_at st' certId) = true ∧ revocations certId log = 0 ∧
   ∃ n co g, c = IssueCertificate certId n co g) ∨
  (exists_ (cert_at st certId) = true ∧ isRevoked (cert_at st certId) = false ∧
   exists_ (cert_at st' certId) = true ∧ isRevoked (cert_at st' certId) = true ∧
   revocations certId log = 1 ∧ c = RevokeCertificate certId).
Proof.
  unfold execute. destruct c as [a | cid n co g | cid]; simpl.
  - unfold_contract. destruct (bool_decide _); simpl; left; auto.
  - destruct (issueCertificate msg cid n co g st) as [[st' log]|] eqn:E;
      simpl; [|left; auto].
    apply issueCertificate_Ok in E as (_ & He & -> & ->).
    destruct (decide (certId = cid)) as [->|Hne].
    + right; left. rewrite cert_at_insert_eq; simpl. eauto 10.
    + left. by rewrite cert_at_insert_ne.
  - destruct (revokeCertificate msg cid st) as [[st' log]|] eqn:E;
      simpl; [|left; auto].
    apply revokeCertificate_Ok in E as (_ & He & Hr & -> & ->).
    destruct (decide (certId = cid)) as [->|Hne].
    + right; right. rewrite cert_at_insert_eq; simpl.
      unfold revocations; simpl. rewrite filter_cons_True; [|simpl; by apply bool_decide_eq_true].
      auto 10.
    + left. rewrite cert_at_insert_ne by done. split; [done|].
      unfold revocations; simpl. rewrite filter_cons_False; [done|].
      simpl. rewrite bool_decide_eq_true. congruence.
Qed.

Lemma reachable_revoked_exist st : reachable st → revoked_exist st.
Proof.
  induction 1 as [msg | st msg c _ IH]; intros certId.
  - unfold cert_at; simpl. rewrite lookup_empty; simpl. discriminate.
  - destruct (execute_cases msg c st certId) as [[-> _] | [(_ & _ & -> & _) | (_ & _ & -> & _)]];
      auto.
Qed.

Lemma execute_reachable msg c st : reachable st → reachable (execute msg c st).1.
Proof. apply reachable_step. Qed.

(** Along any sequence of transactions, a record is revoked at most once,
    and not at all when it is revoked already. *)
Lemma run_revocations txs : ∀ st certId,
  revoked_exist st →
  (revocations certId (run txs st).2
   ≤ if isRevoked (cert_at st certId) then 0 else 1)%nat.
Proof.
  induction txs as [|[msg c] rest IH]; intros st certId Hinv; simpl.
  - unfold revocations; simpl. lia.
  - assert (Hinv' : revoked_exist (execute msg c st).1).
    { intros cid. destruct (execute_cases msg c st cid)
        as [[-> _] | [(_ & _ & -> & _) | (_ & _ & -> & _)]]; auto. }
    specialize (IH (execute msg c st).1 certId Hinv').
    destruct (execute msg c st) as [st1 log1] eqn:E1.
    destruct (run rest st1) as [st2 log2] eqn:E2. simpl in *.
    unfold revocations in *. rewrite filter_app, length_app.
    pose proof (execute_cases msg c st certId) as Hc. rewrite E1 in Hc; simpl in Hc.
    unfold revocations in Hc.
    rewrite ?E2 in IH; simpl in IH.
    destruct Hc as [[Heq Hz] | [(He & Hr' & _ & Hz & _) | (He & Hr & _ & Hr' & Hone & _)]].
    + rewrite Heq in IH. destruct (isRevoked (cert_at st certId)); lia.
    + rewrite Hr' in IH.
      destruct (isRevoked (cert_at st certId)) eqn:Hr; [|lia].
      apply Hinv in Hr. congruence.
    + rewrite Hr' in IH. rewrite Hr. lia.
Qed.

End RegistryFacts.


(** ** The ledger's contract with its callers *)

Module LedgerProperties.

Import Registry RegistryFacts.

(** C1. Issue, then verify.  [issueCertificate] succeeds for an authorized
    sender and a [certId] not yet on the ledger, whatever the student name,
    course and grade; and whenever it succeeds, [verifyCertificate] on the
    resulting storage returns the student name, course and grade that were
    passed in, the block timestamp as issue date, and [isRevoked = false]. *)
Theorem issue_then_verify msg certId n c g st :
  (authorized st (sender msg) = true →
   exists_ (cert_at st certId) = false →
   ∃ st', issueCertificate msg certId n c g st
          = Ok (st', [CertificateIssued certId n])) ∧
  (∀ st' log,
     issueCertificate msg certId n c g st = Ok (st', log) →
     verifyCertificate certId st' = Ok (n, c, g, timestamp msg, false)).
Proof.
  split.
  - apply issueCertificate_succeeds.
  - intros st' log. apply verify_after_issue.
Qed.

Lemma issue_then_verify_witness :
  verifyCertificate "CERT1700000000123" Sample.issued
  = Ok ("Ada Lovelace", "Computer Science", "A", 1700000000%Z, false).
Proof.
  apply (proj2 (issue_then_verify Sample.institution "CERT1700000000123"
                  "Ada Lovelace" "Computer Science" "A" Sample.deployed)
           Sample.issued [CertificateIssued "CERT1700000000123" "Ada Lovelace"]).
  vm_compute. reflexivity.
Defined.

(** C2. The revoked flag is one-way.  In every storage reachable from
    deployment and for every [certId]: a record is created with
    [isRevoked = false]; no transaction turns a set flag back to [false];
    the flag is only ever set by a successful [revokeCertificate] on that
    [certId]; [revokeCertificate] reverts, leaving the storage as it was
    and logging nothing, when the record does not exist or is revoked
    already (with the matching reason for an authorized sender); and along
    any further sequence of transactions the log holds at most one
    [CertificateRevoked certId], none if the record is revoked already. *)
Theorem revocation_is_one_way st certId :
  reachable st →
  (∀ msg n c g st' log,
     issueCertificate msg certId n c g st = Ok (st', log) →
     isRevoked (cert_at st' certId) = false) ∧
  (∀ msg c,
     isRevoked (cert_at st certId) = true →
     isRevoked (cert_at (execute msg c st).1 certId) = true) ∧
  (∀ msg c,
     isRevoked (cert_at st certId) = false →
     isRevoked (cert_at (execute msg c st).1 certId) = true →
     c = RevokeCertificate certId ∧
     (execute msg c st).2 = [CertificateRevoked certId]) ∧
  (∀ msg,
     exists_ (cert_at st certId) = false ∨ isRevoked (cert_at st certId) = true →
     (∃ reason, revokeCertificate msg certId st = Revert reason ∧
        (authorized st (sender msg) = true →
         reason = if exists_ (cert_at st certId)
                  then "Already revoked" else "Certificate does not exist")) ∧
     execute msg (RevokeCertificate certId) st = (st, [])) ∧
  (∀ txs,
     (revocations certId (run txs st).2
      ≤ if isRevoked (cert_at st certId) then 0 else 1)%nat).
Proof.
  intros Hreach. pose proof (reachable_revoked_exist st Hreach) as Hinv.
  split; [|split; [|split; [|split]]].
  - intros msg n c g st' log (_ & _ & -> & _)%issueCertificate_Ok.
    by rewrite cert_at_insert_eq.
  - intros msg c Hr.
    destruct (execute_cases msg c st certId)
      as [[-> _] | [(He & _) | (_ & Hr' & _)]]; [done | | congruence].
    apply Hinv in Hr. congruence.
  - intros msg c Hr Hr'.
    destruct (execute_cases msg c st certId)
      as [[Heq _] | [(_ & Hf & _) | (_ & _ & _ & _ & _ & ->)]]; [congruence.. |].
    split; [done|].
    unfold execute, call in *.
    destruct (revokeCertificate msg certId st) as [[st' log]|] eqn:E; simpl in *.
    + by apply revokeCertificate_Ok in E as (_ & _ & _ & _ & ->).
    + congruence.
  - intros msg Hbad.
    assert (E : revokeCertificate msg certId st
                = Revert (if authorized st (sender msg)
                          then if exists_ (cert_at st certId)
                               then "Already revoked"
                               else "Certificate does not exist"
                          else "Not authorized")).
    { unfold_contract. destruct (authorized st (sender msg)); simpl; [|done].
      destruct (exists_ (cert_at st certId)) eqn:He; simpl; [|done].
      destruct Hbad as [Hbad|Hbad]; [done|]. by rewrite Hbad. }
    split.
    + eexists. split; [exact E|]. by intros ->.
    + unfold execute, call. by rewrite E.
  - intros txs. by apply run_revocations.
Qed.

Lemma revocation_is_one_way_witness :
  (revocations "CERT1700000000123"
     (run [(Sample.institution, RevokeCertificate "CERT1700000000123");
           (Sample.institution, RevokeCertificate "CERT1700000000123")]
          Sample.issued).2 ≤ 1)%nat.
Proof.
  assert (Hreach : reachable Sample.issued).
  { apply reachable_step, reachable_deploy. }
  exact (proj2 (proj2 (proj2 (proj2
           (revocation_is_one_way Sample.issued "CERT1700000000123" Hreach))))
         [(Sample.institution, RevokeCertificate "CERT1700000000123");
          (Sample.institution, RevokeCertificate "CERT1700000000123")]).
Defined.

(** C3. A [certId] is issued at most once.  On a storage that holds
    [certId], [issueCertificate] with that [certId] reverts for every
    sender and every field values, with reason "Already exists" when the
    sender is authorized, and the storage (the existing record with it) is
    as before.  Two issuances of one fresh [certId] by authorized senders,
    in whichever order the chain takes them: the first succeeds, the second
    reverts with "Already exists", and the record is the first one's. *)
Theorem duplicate_issue_conflict st certId :
  (exists_ (cert_at st certId) = true →
   ∀ msg n c g,
     (∃ reason, issueCertificate msg certId n c g st = Revert reason ∧
        (authorized st (sender msg) = true → reason = "Already exists")) ∧
     execute msg (IssueCertificate certId n c g) st = (st, [])) ∧
  (exists_ (cert_at st certId) = false →
   ∀ m1 n1 c1 g1 m2 n2 c2 g2,
     authorized st (sender m1) = true →
     authorized st (sender m2) = true →
     ∃ st1,
       issueCertificate m1 certId n1 c1 g1 st
       = Ok (st1, [CertificateIssued certId n1]) ∧
       issueCertificate m2 certId n2 c2 g2 st1 = Revert "Already exists" ∧
       execute m2 (IssueCertificate certId n2 c2 g2) st1 = (st1, []) ∧
       verifyCertificate certId st1 = Ok (n1, c1, g1, timestamp m1, false)).
Proof.
  assert (Hdup : ∀ s, exists_ (cert_at s certId) = true →
            ∀ msg n c g,
              issueCertificate msg certId n c g s
              = Revert (if authorized s (sender msg)
                        then "Already exists" else "Not authorized")).
  { intros s He msg n c g. unfold_contract.
    destruct (authorized s (sender msg)); simpl; [|done]. by rewrite He. }
  split.
  - intros He msg n c g. split.
    + eexists. split; [by apply Hdup|]. by intros ->.
    + unfold execute, call. by rewrite Hdup.
  - intros He m1 n1 c1 g1 m2 n2 c2 g2 Ha1 Ha2.
    destruct (issueCertificate_succeeds m1 certId n1 c1 g1 st Ha1 He) as [st1 E].
    exists st1. split; [done|].
    pose proof (verify_after_issue _ _ _ _ _ _ _ _ E) as Hv.
    pose proof (issueCertificate_Ok _ _ _ _ _ _ _ _ E) as (_ & _ & Hst & _).
    assert (He1 : exists_ (cert_at st1 certId) = true).
    { subst st1. by rewrite cert_at_insert_eq. }
    assert (Ha : authorized st1 (sender m2) = true) by (by subst st1).
    split; [|split; [|done]].
    + rewrite Hdup by done. by rewrite Ha.
    + unfold execute, call. by rewrite Hdup.
Qed.

Lemma duplicate_issue_conflict_witness :
  execute Sample.outsider
    (IssueCertificate "CERT1700000000123" "Eve" "Forgery" "A+") Sample.issued
  = (Sample.issued, []).
Proof.
  apply (proj1 (duplicate_issue_conflict Sample.issued "CERT1700000000123")).
  vm_compute. reflexivity.
Defined.

(** C7. Revocation changes the flag and nothing else.
    [revokeCertificate] succeeds for an authorized sender on a record that
    exists and is not revoked.  Whenever it succeeds, the record existed
    and was not revoked, and [verifyCertificate] afterwards returns the
    same student name, course, grade and issue date as before with
    [isRevoked = true]; every other record, the authorized institutions and
    the admin are untouched; revoking once more reverts with
    "Already revoked". *)
Theorem revoke_changes_only_flag msg certId st :
  (authorized st (sender msg) = true →
   exists_ (cert_at st certId) = true →
   isRevoked (cert_at st certId) = false →
   ∃ st', revokeCertificate msg certId st = Ok (st', [CertificateRevoked certId])) ∧
  (∀ st' log,
     revokeCertificate msg certId st = Ok (st', log) →
     (∃ n c g d,
        verifyCertificate certId st = Ok (n, c, g, d, false) ∧
        verifyCertificate certId st' = Ok (n, c, g, d, true)) ∧
     (∀ other, other ≠ certId → cert_at st' other = cert_at st other) ∧
     authorizedInstitutions st' = authorizedInstitutions st ∧
     admin st' = admin st ∧
     revokeCertificate msg certId st' = Revert "Already revoked").
Proof.
  split; [apply revokeCertificate_succeeds|].
  intros st' log (Ha & He & Hr & -> & _)%revokeCertificate_Ok.
  split; [|split; [|split; [done|split; [done|]]]].
  - exists (studentName (cert_at st certId)), (course (cert_at st certId)),
      (grade (cert_at st certId)), (issueDate (cert_at st certId)).
    rewrite !verifyCertificate_exists; rewrite ?cert_at_insert_eq; simpl; try done.
    by rewrite Hr.
  - intros other Hne. simpl. by rewrite cert_at_insert_ne.
  - unfold_contract. simpl. unfold authorized in *; simpl. rewrite Ha; simpl.
    rewrite cert_at_insert_eq; simpl. by rewrite He.
Qed.

Lemma revoke_changes_only_flag_witness :
  verifyCertificate "CERT1700000000123" Sample.revoked
  = Ok ("Ada Lovelace", "Computer Science", "A", 1700000000%Z, true).
Proof.
  destruct (proj2 (revoke_changes_only_flag Sample.institution
                     "CERT1700000000123" Sample.issued)
              Sample.revoked [CertificateRevoked "CERT1700000000123"])
    as [(n & c & g & d & Hbefore & Hafter) _].
  - vm_compute. reflexivity.
  - rewrite Hafter. vm_compute in Hbefore. congruence.
Defined.

End LedgerProperties.


(** ** The backend's handling of the two stores *)

Module BackendProperties.

Import Backend.

(** *** Running a route symbolically

    [run] unfolds a route down to the conditions it branches on and splits
    on them innermost first, so that every goal is one path through the
    handler with its final stores, trace and response. *)

Ltac unfold_routes :=
  unfold issueRoute, issueHandler, verifyRoute, pdfRoute, downloadRoute,
    deleteRoute, authenticateToken, upload_single, contract_issueCertificate,
    contract_verifyCertificate, tx_wait, renameSync, unlinkSync, existsSync,
    readFileSync, writeFile, set_uploads, db_insert, db_get, db_delete,
    errorHandler, try_catch, throw, emit, put, get, json in *.

Ltac norm :=
  cbv beta iota zeta delta [mbind M_bind mret M_ret world trace value] in *;
  cbn [app ledger db uploads rows sequence path storedOriginalname
       multerCode errStatus message Error status payload] in *.

Ltac stuck t :=
  lazymatch t with
  | context [match ?x with _ => _ end] => stuck x
  | _ => destruct t eqn:?
  end.

Ltac step :=
  lazymatch goal with
  | |- context [match ?x with _ => _ end] => stuck x
  end.

Ltac run := unfold_routes; norm; repeat (step; norm).

Ltac lookups :=
  repeat first
    [ rewrite lookup_delete_eq in *
    | rewrite lookup_insert_eq in *
    | rewrite lookup_delete_ne in * by (try apply not_eq_sym; auto)
    | rewrite lookup_insert_ne in * by (try apply not_eq_sym; auto) ].

Ltac members :=
  repeat match goal with
  | H : _ ∈ [] |- _ => by apply elem_of_nil in H
  | H : _ ∈ _ :: _ |- _ =>
      let E := fresh "E" in
      apply elem_of_cons in H as [E | H];
      [first [discriminate E | injection E as -> | subst] |]
  end.

(** Splits [l !! i = Some e] for a literal [l] into one goal per position. *)
Ltac positions H :=
  repeat match type of H with
  | (_ :: _) !! ?i = Some _ =>
      destruct i as [|i]; cbn [lookup list_lookup] in H;
      [injection H as <- |]
  | [] !! ?i = Some _ => destruct i; discriminate H
  end.

Ltac earlier :=
  first [ exists 0, 1; split; [lia | split; reflexivity]
        | exists 1, 2; split; [lia | split; reflexivity] ].

(** *** Auxiliary facts *)

Lemma validation_catches b :
  (String.length (bodyStudentName b) < 2 ∨ 100 < String.length (bodyStudentName b) ∨
   String.length (bodyCourse b) < 2 ∨ 100 < String.length (bodyCourse b) ∨
   String.length (bodyGrade b) < 1 ∨ 50 < String.length (bodyGrade b))%nat →
  validationResult b ≠ [].
Proof.
  intros H E. unfold validationResult, checkField, isLength in E.
  apply app_eq_nil in E as [E1 E]. apply app_eq_nil in E as [E2 E3].
  apply app_eq_nil in E1 as [_ E1]. apply app_eq_nil in E2 as [_ E2].
  apply app_eq_nil in E3 as [_ E3].
  repeat case_match; try discriminate.
  repeat match goal with
  | H : (_ && _) = true |- _ => apply andb_true_iff in H as [? ?]
  | H : (_ <=? _)%nat = true |- _ => apply Nat.leb_le in H
  end. lia.
Qed.

Lemma validation_passes b :
  (2 ≤ String.length (bodyStudentName b) ≤ 100 ∧
   2 ≤ String.length (bodyCourse b) ≤ 100 ∧
   1 ≤ String.length (bodyGrade b) ≤ 50)%nat →
  validationResult b = [].
Proof.
  intros (Hn & Hc & Hg). unfold validationResult, checkField, isLength, notEmpty.
  assert (Hne : ∀ v, (1 ≤ String.length v)%nat → negb (String.eqb v "") = true).
  { intros [|? ?]; simpl; [lia|done]. }
  rewrite !Hne by lia.
  repeat match goal with
  | |- context [(?a <=? ?b)%nat] => rewrite (proj2 (Nat.leb_le a b)) by lia
  end. reflexivity.
Qed.

(** The name [multer] stores a file under is never a name derived from a
    certificate identifier. *)
Lemma temp_is_not_cert sv now f cid ext : tempName sv now f ≠ ("CERT" ++ cid) ++ ext.
Proof. unfold tempName. simpl. discriminate. Qed.

Lemma issue_reverts_when msg cid n c g st :
  Registry.authorized st (Registry.sender msg) = false ∨
  Registry.exists_ (Registry.cert_at st cid) = true →
  ∃ reason, Registry.issueCertificate msg cid n c g st = Registry.Revert reason.
Proof.
  intros H.
  destruct (Registry.issueCertificate msg cid n c g st) as [[st' log]|reason] eqn:E;
    [|eauto].
  apply RegistryFacts.issueCertificate_Ok in E as (Ha & He & _).
  destruct H; congruence.
Qed.

Lemma prefix_of_app a b : String.prefix a (a ++ b) = true.
Proof.
  induction a as [|c a IH]; simpl; [by destruct b|].
  by destruct (ascii_dec c c).
Qed.

Lemma includes_unfold s sub :
  includes s sub
  = String.prefix sub s ||
    match s with
    | EmptyString => false
    | String _ rest => includes rest sub
    end.
Proof. by destruct s. Qed.

Lemma includes_inside before sub after :
  includes (before ++ sub ++ after) sub = true.
Proof.
  induction before as [|c before IH].
  - change (includes (sub ++ after) sub = true).
    by rewrite includes_unfold, prefix_of_app.
  - change (includes (String c (before ++ sub ++ after)) sub = true).
    rewrite includes_unfold, IH. apply orb_true_r.
Qed.

(** Whatever the client writes around it, the reason of a revert is found
    in the message. *)
Lemma revert_text_found ch reason :
  includes (callException ch reason) reason = true.
Proof. apply includes_inside. Qed.

Lemma verify_revert cid st reason :
  Registry.verifyCertificate cid st = Registry.Revert reason →
  reason = notFoundText ∧ Registry.exists_ (Registry.cert_at st cid) = false.
Proof.
  unfold Registry.verifyCertificate, Registry.require.
  destruct (Registry.exists_ (Registry.cert_at st cid)); simpl; [discriminate|].
  by intros [= <-].
Qed.

Ltac ledger_reads :=
  repeat match goal with
  | H : Registry.verifyCertificate _ _ = Registry.Revert _ |- _ =>
      apply verify_revert in H as [-> ?]
  | H : Registry.verifyCertificate _ _ = Registry.Ok _ |- _ =>
      apply RegistryFacts.verifyCertificate_Ok in H as [? ?]
  | H : includes (callException _ notFoundText) notFoundText = false |- _ =>
      rewrite revert_text_found in H; discriminate H
  end.

Lemma ledger_read_depends_on_ledger ch cid w1 w2 :
  ledger w1 = ledger w2 →
  value (contract_verifyCertificate ch cid w1)
  = value (contract_verifyCertificate ch cid w2).
Proof.
  intros Heq. unfold contract_verifyCertificate, throw, get, emit.
  destruct (rpc ch); [|done]. norm. rewrite Heq.
  by destruct (Registry.verifyCertificate cid (ledger w2)).
Qed.

(** The two download routes, path by path. *)
Lemma pdfRoute_cases sv ch logo cid w :
  let p := pdfRoute sv ch logo cid w in
  (rpc ch = Online →
   Registry.exists_ (Registry.cert_at (ledger w) cid) = true →
   Registry.isRevoked (Registry.cert_at (ledger w) cid) = true →
   value p = inr (mkResponse 400 (ErrorMessage revokedText))) ∧
  (∀ r, value p = inr r → isArtifact r = true →
     rpc ch = Online ∧
     Registry.exists_ (Registry.cert_at (ledger w) cid) = true ∧
     Registry.isRevoked (Registry.cert_at (ledger w) cid) = false).
Proof.
  run; ledger_reads; simplify_eq; split.
  all: try (intros; congruence).
  all: try (intros r [= <-]; by cbn).
Qed.

Lemma downloadRoute_cases sv ch cid w :
  let d := downloadRoute sv ch cid w in
  (rpc ch = Online →
   Registry.exists_ (Registry.cert_at (ledger w) cid) = true →
   Registry.isRevoked (Registry.cert_at (ledger w) cid) = true →
   value d = inr (mkResponse 400 (ErrorMessage revokedText))) ∧
  (∀ r, value d = inr r → isArtifact r = true →
     rpc ch = Online ∧
     Registry.exists_ (Registry.cert_at (ledger w) cid) = true ∧
     Registry.isRevoked (Registry.cert_at (ledger w) cid) = false).
Proof.
  run; ledger_reads; simplify_eq; split.
  all: try (intros; congruence).
  all: try (intros r [= <-]; by cbn).
Qed.

(** *** The routes on the sample data *)

Example issue_over_http :
  let o := issueRoute Sample.services Sample.laterEnv Sample.request
             Sample.ledgerOnly in
  value o
  = inr (json (Issued "CERT1700000000999" "0xabc" true
                 "data:image/png;base64,http://localhost:3000/verify/CERT1700000000999"
                 "http://localhost:3000/verify/CERT1700000000999")) ∧
  trace o
  = [FsWrite "temp_1700000000900.pdf";
     LedgerSubmitted "CERT1700000000999";
     LedgerConfirmed "CERT1700000000999";
     FsRename "temp_1700000000900.pdf" "CERT1700000000999.pdf";
     DbInsert "CERT1700000000999"] ∧
  value (verifyRoute Sample.services Sample.online "CERT1700000000999" (world o))
  = inr (json (Verified "Ada Lovelace" "Computer Science" "A" 1700000000 false
                 true (Some "0xabc")
                 "data:image/png;base64,http://localhost:3000/verify/CERT1700000000999"
                 "http://localhost:3000/verify/CERT1700000000999")).
Proof. vm_compute. auto. Qed.

Example verify_unknown_identifier :
  value (verifyRoute Sample.services Sample.online "CERT-does-not-exist"
           Sample.mirrored)
  = inr (json NotExists).
Proof. vm_compute. reflexivity. Qed.

(** The sample document is a PDF header and a word: the PDF library cannot
    parse it, and the download of the valid certificate is answered with
    the library's error. *)
Example download_of_unparsable_document :
  ∃ text,
    value (downloadRoute Sample.services Sample.online "CERT1700000000123"
             Sample.mirrored)
    = inr (mkResponse 500 (ErrorMessage text)).
Proof. eexists. vm_compute. reflexivity. Qed.

Example verify_after_local_delete :
  let o := deleteRoute ValidToken "CERT1700000000123" Sample.mirrored in
  world o = mkWorld Sample.issued (mkDatabase ∅ 1) ∅ ∧
  value (verifyRoute Sample.services Sample.online "CERT1700000000123" (world o))
  = inr (json (Verified "Ada Lovelace" "Computer Science" "A" 1700000000 false
                 false None
                 "data:image/png;base64,http://localhost:3000/verify/CERT1700000000123"
                 "http://localhost:3000/verify/CERT1700000000123")).
Proof. vm_compute. auto. Qed.

Example rejected_upload_leaves_nothing :
  uploads (world (issueRoute Sample.services Sample.env Sample.shortName
                    Sample.ledgerOnly)) = ∅.
Proof. vm_compute. reflexivity. Qed.

(** *** Verification *)

(** C4. Not found is not a transport failure.  The text of a connection
    failure is the client library's; taking it not to contain the revert
    reason "Certificate does not exist" (the route tells the two kinds of
    error apart by that substring), the verify route answers
    [{exists: false}] exactly when the ledger was reached and holds no
    record for the identifier, and answers an unreachable ledger or a
    timeout with status 500 and the failure text, which is a different
    response.  The route changes no store. *)
Theorem not_found_is_not_transient sv ch cid w :
  (∀ failure, rpc ch = Offline failure → includes failure notFoundText = false) →
  let o := verifyRoute sv ch cid w in
  world o = w ∧
  (value o = inr (json NotExists) ↔
   rpc ch = Online ∧ Registry.exists_ (Registry.cert_at (ledger w) cid) = false) ∧
  (∀ failure, rpc ch = Offline failure →
     value o = inr (mkResponse 500 (ErrorMessage failure))).
Proof.
  intros Htransport o. subst o.
  run; ledger_reads; simplify_eq.
  all: try (specialize (Htransport _ eq_refl); congruence).
  all: split; [done|split; [split; [intros [=] | intros [? ?]; congruence]
                           | intros ? [=]; congruence]].
  all: try done.
Qed.

Lemma not_found_is_not_transient_witness :
  value (verifyRoute Sample.services Sample.offline "CERT-does-not-exist"
           Sample.ledgerOnly)
  = inr (mkResponse 500 (ErrorMessage "request timeout")).
Proof.
  refine (proj2 (proj2 (not_found_is_not_transient Sample.services Sample.offline
            "CERT-does-not-exist" Sample.ledgerOnly _)) "request timeout" eq_refl).
  intros failure [= <-]. vm_compute. reflexivity.
Defined.

(** *** Issuance *)

(** C5. A failed ledger write leaves no local state.  Take an issuance
    request that reaches the ledger write (its document, if any, passed the
    upload middleware and its fields passed validation) and let the write
    fail: the ledger is unreachable, the process wallet is not authorized,
    or the generated identifier is on the ledger already.  Then the ledger
    and the table are as before, the temporary upload is gone from the
    uploads directory and no other file there changed, in particular none
    under a name derived from the identifier; the request made no local
    write and is answered with status 500. *)
Theorem failed_ledger_write_leaves_no_local_state sv env req w :
  uploadAccepted (document req) = true →
  validationResult (sanitize (body req)) = [] →
  ((∃ failure, rpc (chain env) = Offline failure) ∨
   Registry.authorized (ledger w) (wallet sv) = false ∨
   Registry.exists_ (Registry.cert_at (ledger w) (newCertId env)) = true) →
  let o := issueRoute sv env req w in
  ledger (world o) = ledger w ∧
  db (world o) = db w ∧
  (∀ f, document req = Some f →
        uploads (world o) !! tempName sv (uploadClock env) f = None) ∧
  (∀ name, (∀ f, document req = Some f → name ≠ tempName sv (uploadClock env) f) →
        uploads (world o) !! name = uploads w !! name) ∧
  (∀ ext, uploads (world o) !! (newCertId env ++ ext)
          = uploads w !! (newCertId env ++ ext)) ∧
  (∀ e, e ∈ trace o → isLocalWrite e = false) ∧
  ∃ r, value o = inr r ∧ status r = 500.
Proof.
  intros Hup Hval Hfail o.
  assert (Hcert : ∀ ext f, tempName sv (uploadClock env) f ≠ newCertId env ++ ext).
  { intros ext f. apply temp_is_not_cert. }
  assert (Hled : rpc (chain env) = Online →
     ∃ reason, Registry.issueCertificate
       (Registry.mkMsg (wallet sv) (blockTimestamp (chain env))) (newCertId env)
       (bodyStudentName (sanitize (body req))) (bodyCourse (sanitize (body req)))
       (bodyGrade (sanitize (body req))) (ledger w) = Registry.Revert reason).
  { intros Hon. apply issue_reverts_when.
    destruct Hfail as [[failure Hoff] | Hfail]; [congruence | exact Hfail]. }
  subst o. unfold uploadAccepted in Hup. unfold issueRoute.
  destruct (document req) as [u|] eqn:Hdoc;
    [apply andb_true_iff in Hup as [Hty Hsz%negb_true_iff]|].
  all: unfold_routes; rewrite ?Hty, ?Hsz, ?Hval; norm; repeat (step; norm);
    try discriminate;
    try (destruct Hled as [? ?]; [done | congruence]);
    lookups; try discriminate.
  all: repeat split; try done; eauto.
  all: try (intros ? [= <-]; by lookups).
  all: try (intros name Hn; specialize (Hn _ eq_refl); by lookups).
  all: try (intros ext; pose proof (Hcert ext u); by lookups).
  all: try (intros e He; members; done).
Qed.

Lemma failed_ledger_write_leaves_no_local_state_witness :
  db (world (issueRoute Sample.services Sample.env Sample.request Sample.ledgerOnly))
  = db Sample.ledgerOnly.
Proof.
  refine (proj1 (proj2 (failed_ledger_write_leaves_no_local_state
            Sample.services Sample.env Sample.request Sample.ledgerOnly _ _ _))).
  - vm_compute. reflexivity.
  - vm_compute. reflexivity.
  - right. right. vm_compute. reflexivity.
Defined.

(** C6. The ledger first, the mirror after.  In the sequence of effects of
    any issuance request, a write of the local mirror (the insertion of the
    row, the move of the document to its final name) comes after the
    submission of the ledger transaction for the same identifier and after
    its confirmation by [tx.wait()], in that order; and a request whose
    transaction the ledger rejected writes nothing locally. *)
Theorem ledger_confirmed_before_local_write sv env req w :
  let t := trace (issueRoute sv env req w) in
  (∀ i e,
     t !! i = Some e → isLocalWrite e = true →
     (∀ c, e = DbInsert c → c = newCertId env) ∧
     ∃ j k, j < k < i ∧
       t !! j = Some (LedgerSubmitted (newCertId env)) ∧
       t !! k = Some (LedgerConfirmed (newCertId env))) ∧
  (∀ c e, LedgerRejected c ∈ t → e ∈ t → isLocalWrite e = false).
Proof.
  run; split.
  all: try (intros c e Hc He; members; done).
  all: intros i e Hi Hw; positions Hi; try discriminate Hw.
  all: split; [intros c Hc; congruence | earlier].
Qed.

(** C8. Field validation comes after the upload and does not undo it.
    The claim has an invalid request rejected before any write, with no
    persisted document.  For an issuance request whose student name or
    course, once trimmed, is shorter than 2 or longer than 100 characters,
    or whose trimmed grade is shorter than 1 or longer than 50, and whose
    document passes the upload middleware: the answer is status 400 with
    the non-empty list of validation errors and the ledger and the table
    are as before, but the upload middleware has already written the
    document into the uploads directory under its temporary name, and the
    rejection leaves it there.  The handler's own failure path removes that
    file; the validation failure path does not. *)
Theorem invalid_fields_keep_the_temporary_upload sv env req w f :
  (String.length (trim (bodyStudentName (body req))) < 2 ∨
   100 < String.length (trim (bodyStudentName (body req))) ∨
   String.length (trim (bodyCourse (body req))) < 2 ∨
   100 < String.length (trim (bodyCourse (body req))) ∨
   String.length (trim (bodyGrade (body req))) < 1 ∨
   50 < String.length (trim (bodyGrade (body req))))%nat →
  document req = Some f →
  uploadAccepted (Some f) = true →
  let o := issueRoute sv env req w in
  let temp := tempName sv (uploadClock env) f in
  validationResult (sanitize (body req)) ≠ [] ∧
  value o = inr (mkResponse 400
                   (ValidationFailed (validationResult (sanitize (body req))))) ∧
  ledger (world o) = ledger w ∧
  db (world o) = db w ∧
  trace o = [FsWrite temp] ∧
  uploads (world o) = <[ temp := content f ]> (uploads w).
Proof.
  intros Hbad Hdoc Hacc o temp.
  pose proof (validation_catches (sanitize (body req)) Hbad) as Hne.
  split; [done|].
  unfold uploadAccepted in Hacc.
  apply andb_true_iff in Hacc as [Hty Hsz%negb_true_iff].
  subst o temp. unfold issueRoute. rewrite Hdoc.
  destruct (validationResult (sanitize (body req))) as [|err errs] eqn:Hval; [done|].
  unfold_routes. rewrite Hty, Hsz. cbn [negb]. norm. done.
Qed.

Lemma invalid_fields_keep_the_temporary_upload_witness :
  value (issueRoute Sample.services Sample.env
           (mkIssueRequest (mkIssueBody " A " "Computer Science" "A") (Some Sample.scan))
           Sample.ledgerOnly)
  = inr (mkResponse 400
           (ValidationFailed
              [mkFieldError "studentName" "Student name must be 2-100 characters"])) ∧
  uploads (world (issueRoute Sample.services Sample.env
                    (mkIssueRequest (mkIssueBody " A " "Computer Science" "A")
                       (Some Sample.scan))
                    Sample.ledgerOnly))
  !! "temp_1700000000100.pdf" = Some "%PDF-1.4 diploma".
Proof.
  pose proof (invalid_fields_keep_the_temporary_upload Sample.services Sample.env
                (mkIssueRequest (mkIssueBody " A " "Computer Science" "A")
                   (Some Sample.scan))
                Sample.ledgerOnly Sample.scan) as H.
  destruct H as (_ & Hval & _ & _ & _ & Hfiles).
  - left. vm_compute. lia.
  - reflexivity.
  - vm_compute. reflexivity.
  - split.
    + rewrite Hval. vm_compute. reflexivity.
    + rewrite Hfiles. vm_compute. reflexivity.
Defined.

(** Validation is not reached when the upload is refused: a request with
    the one-letter name "A" and a [text/plain] attachment is turned away by
    the upload middleware, which runs before the validation chains, and is
    answered with status 500 "Internal server error", not with a validation
    error. *)
Example short_name_with_rejected_upload :
  (String.length (trim (bodyStudentName (body Sample.shortName))) < 2)%nat ∧
  value (issueRoute Sample.services Sample.env Sample.shortName Sample.ledgerOnly)
  = inr (mkResponse 500 (InternalServerError None)) ∧
  ¬ ∃ details,
      value (issueRoute Sample.services Sample.env Sample.shortName Sample.ledgerOnly)
      = inr (mkResponse 400 (ValidationFailed details)).
Proof.
  split; [vm_compute; lia|]. split; [vm_compute; reflexivity|].
  intros [details H]. vm_compute in H. discriminate H.
Qed.

(** *** Local deletion *)

(** C9. Deleting the local record does not touch the ledger.  For an
    authenticated delete of an identifier that has a row: the answer is the
    success message, the row is gone from the table, the file named by the
    row's [documentPath] is gone from the uploads directory and no other
    file changed, the ledger is as before, and a ledger verify of the
    identifier returns what it returned before the deletion. *)
Theorem local_delete_leaves_ledger cid w row :
  rows (db w) !! cid = Some row →
  let o := deleteRoute ValidToken cid w in
  value o = inr (json Deleted) ∧
  rows (db (world o)) = delete cid (rows (db w)) ∧
  (∀ doc, documentPath row = Some doc → doc ≠ "" →
          uploads (world o) !! doc = None) ∧
  (∀ name, documentPath row ≠ Some name →
          uploads (world o) !! name = uploads w !! name) ∧
  ledger (world o) = ledger w ∧
  (∀ ch, value (contract_verifyCertificate ch cid (world o))
         = value (contract_verifyCertificate ch cid w)).
Proof.
  intros Hrow o.
  assert (Hmain :
    value o = inr (json Deleted) ∧
    rows (db (world o)) = delete cid (rows (db w)) ∧
    (∀ doc, documentPath row = Some doc → doc ≠ "" →
            uploads (world o) !! doc = None) ∧
    (∀ name, documentPath row ≠ Some name →
            uploads (world o) !! name = uploads w !! name) ∧
    ledger (world o) = ledger w).
  { subst o. unfold deleteRoute, authenticateToken, db_get.
    unfold_routes. norm. rewrite Hrow. unfold truthy.
    destruct (documentPath row) as [doc|] eqn:Hdoc; cbn [default negb];
      [|by repeat split].
    destruct (String.eqb doc "") eqn:Hempty; cbn [negb]; norm.
    - apply String.eqb_eq in Hempty as ->.
      repeat split; try done. by intros doc [= <-].
    - repeat (step; norm); unfold Datatypes.id in *; simplify_eq.
      all: repeat split; try done.
      all: try (intros d [= <-] _; by lookups).
      all: try (intros name Hn; rewrite lookup_delete_ne; [done | congruence]).
      intros d [= <-] _.
      match goal with
      | H : bool_decide (is_Some _) = false |- _ =>
          apply bool_decide_eq_false in H; by apply eq_None_not_Some
      end. }
  destruct Hmain as (? & ? & ? & ? & Hledger).
  repeat split; try done.
  intros ch. by apply ledger_read_depends_on_ledger.
Qed.

Lemma local_delete_leaves_ledger_witness :
  rows (db (world (deleteRoute ValidToken "CERT1700000000123" Sample.mirrored)))
  = delete "CERT1700000000123" (rows (db Sample.mirrored)).
Proof.
  refine (proj1 (proj2 (local_delete_leaves_ledger "CERT1700000000123"
                          Sample.mirrored Sample.row _))).
  vm_compute. reflexivity.
Defined.

(** *** Downloads *)

(** C10. No artifact for a revoked certificate.  On a ledger reachable from
    deployment, for a certificate whose record is revoked, neither the
    certificate-PDF route nor the stamped-document route ever answers with
    a file, and whenever the ledger could be read both answer status 400
    "Certificate has been revoked".  Conversely, a file is only ever sent
    for an identifier that the ledger, read successfully, holds and has not
    revoked. *)
Theorem revoked_certificates_yield_no_artifact sv ch logo cid w :
  Registry.reachable (ledger w) →
  let p := pdfRoute sv ch logo cid w in
  let d := downloadRoute sv ch cid w in
  (Registry.isRevoked (Registry.cert_at (ledger w) cid) = true →
   (∀ r, value p = inr r ∨ value d = inr r → isArtifact r = false) ∧
   (rpc ch = Online →
    value p = inr (mkResponse 400 (ErrorMessage revokedText)) ∧
    value d = inr (mkResponse 400 (ErrorMessage revokedText)))) ∧
  (∀ r, value p = inr r ∨ value d = inr r → isArtifact r = true →
     rpc ch = Online ∧
     Registry.exists_ (Registry.cert_at (ledger w) cid) = true ∧
     Registry.isRevoked (Registry.cert_at (ledger w) cid) = false).
Proof.
  intros Hreach p d.
  destruct (pdfRoute_cases sv ch logo cid w) as [Hp1 Hp2].
  destruct (downloadRoute_cases sv ch cid w) as [Hd1 Hd2].
  assert (Hart : ∀ r, value p = inr r ∨ value d = inr r → isArtifact r = true →
     rpc ch = Online ∧
     Registry.exists_ (Registry.cert_at (ledger w) cid) = true ∧
     Registry.isRevoked (Registry.cert_at (ledger w) cid) = false).
  { intros r [Hr | Hr] Ha; [by apply (Hp2 r) | by apply (Hd2 r)]. }
  split; [|exact Hart].
  intros Hrev. split.
  - intros r Hr. destruct (isArtifact r) eqn:Ha; [|done].
    destruct (Hart r Hr Ha) as (_ & _ & Hno). congruence.
  - intros Hon.
    pose proof (RegistryFacts.reachable_revoked_exist _ Hreach cid Hrev) as Hex.
    split; [by apply Hp1 | by apply Hd1].
Qed.

Lemma revoked_certificates_yield_no_artifact_witness :
  value (downloadRoute Sample.services Sample.online "CERT1700000000123"
           Sample.mirroredRevoked)
  = inr (mkResponse 400 (ErrorMessage revokedText)).
Proof.
  assert (Hreach : Registry.reachable (ledger Sample.mirroredRevoked)).
  { apply Registry.reachable_step, Registry.reachable_step,
      Registry.reachable_deploy. }
  refine (proj2 (proj2 (proj1 (revoked_certificates_yield_no_artifact
            Sample.services Sample.online true "CERT1700000000123"
            Sample.mirroredRevoked Hreach) _) eq_refl)).
  vm_compute. reflexivity.
Defined.

End BackendProperties.


(** ** Further properties of the contract *)

Module RegistryExtras.

Import Registry RegistryFacts.

Lemma execute_access msg c st :
  admin (execute msg c st).1 = admin st ∧
  (∀ b, authorized st b = true → authorized (execute msg c st).1 b = true) ∧
  (∀ b, authorized st b = false → authorized (execute msg c st).1 b = true →
        sender msg = admin st ∧ c = AddInstitution b).
Proof.
  unfold execute, call. destruct c as [a | cid n co g | cid]; simpl.
  - unfold addInstitution, onlyAdmin, require.
    destruct (bool_decide (sender msg = admin st)) eqn:Hadm; simpl.
    + apply bool_decide_eq_true in Hadm. split; [done|]. unfold authorized; simpl.
      split; intros b.
      * destruct (decide (a = b)) as [->|Hne]; [by rewrite lookup_insert_eq|].
        by rewrite lookup_insert_ne.
      * destruct (decide (a = b)) as [->|Hne]; [done|].
        rewrite lookup_insert_ne by done. congruence.
    + repeat split; auto; intros; congruence.
  - destruct (issueCertificate msg cid n co g st) as [[st' log]|] eqn:E; simpl.
    + apply issueCertificate_Ok in E as (_ & _ & -> & _).
      repeat split; auto; unfold authorized in *; simpl in *; intros; congruence.
    + repeat split; auto; intros; congruence.
  - destruct (revokeCertificate msg cid st) as [[st' log]|] eqn:E; simpl.
    + apply revokeCertificate_Ok in E as (_ & _ & _ & -> & _).
      repeat split; auto; unfold authorized in *; simpl in *; intros; congruence.
    + repeat split; auto; intros; congruence.
Qed.

(** X1. Who may write.  After any sequence of transactions on a freshly
    deployed contract, the admin is still the deployer, the deployer is
    still authorized, and every authorized address is the deployer or was
    named in an [addInstitution] transaction sent by the deployer. *)
Theorem authorization_comes_from_the_deployer deployer txs b :
  let st := (run txs (constructor deployer)).1 in
  admin st = sender deployer ∧
  authorized st (sender deployer) = true ∧
  (authorized st b = true →
   b = sender deployer ∨
   ∃ msg, (msg, AddInstitution b) ∈ txs ∧ sender msg = sender deployer).
Proof.
  assert (Hgen : ∀ txs st0,
    admin (run txs st0).1 = admin st0 ∧
    (∀ a, authorized st0 a = true → authorized (run txs st0).1 a = true) ∧
    (authorized (run txs st0).1 b = true →
     authorized st0 b = true ∨
     ∃ msg, (msg, AddInstitution b) ∈ txs ∧ sender msg = admin st0)).
  { clear txs. induction txs as [|[msg c] rest IH]; intros st0; simpl.
    - repeat split; auto.
    - destruct (execute_access msg c st0) as (Hadm & Hmono & Hnew).
      destruct (execute msg c st0) as [st1 log1] eqn:E1. simpl in *.
      destruct (IH st1) as (Hadm' & Hmono' & Hnew').
      destruct (run rest st1) as [st2 log2] eqn:E2. simpl in *.
      split; [congruence|]. split; [auto|].
      intros Hb. destruct (Hnew' Hb) as [H1 | (m & Hin & Hs)].
      + destruct (authorized st0 b) eqn:H0; [auto|].
        destruct (Hnew _ H0 H1) as [Hs ->]. right. exists msg.
        split; [apply elem_of_cons; auto | done].
      + right. exists m. split; [apply elem_of_cons; auto | congruence]. }
  intros st. subst st.
  destruct (Hgen txs (constructor deployer)) as (Hadm & Hmono & Hnew).
  split; [done|]. split.
  - apply Hmono. unfold authorized, constructor; simpl. by rewrite lookup_singleton_eq.
  - intros Hb. destruct (Hnew Hb) as [H0 | H]; [|by right].
    left. unfold authorized, constructor in H0; simpl in H0.
    destruct (decide (sender deployer = b)) as [->|Hne]; [done|].
    by rewrite lookup_singleton_ne in H0.
Qed.

(** The admin is authorized in every reachable storage. *)
Lemma reachable_admin_authorized st : reachable st → authorized st (admin st) = true.
Proof.
  induction 1 as [msg | st msg c _ IH].
  - unfold authorized, constructor; simpl. by rewrite lookup_singleton_eq.
  - destruct (execute_access msg c st) as (-> & Hmono & _). auto.
Qed.

(** X2. In every storage reachable from deployment, whatever a sender that
    is not authorized calls ([addInstitution], [issueCertificate] or
    [revokeCertificate], with any arguments), the call reverts and the
    storage and the log stay as they were. *)
Theorem unauthorized_sender_changes_nothing st msg c :
  reachable st →
  authorized st (sender msg) = false →
  execute msg c st = (st, []) ∧
  ∃ reason, call msg c st = Revert reason.
Proof.
  intros Hreach Hno. pose proof (reachable_admin_authorized st Hreach) as Hadm.
  assert (Hcall : ∃ reason, call msg c st = Revert reason).
  { destruct c as [a | cid n co g | cid]; simpl.
    - unfold addInstitution, onlyAdmin, require.
      destruct (bool_decide (sender msg = admin st)) eqn:E; simpl; [|eauto].
      apply bool_decide_eq_true in E. congruence.
    - unfold issueCertificate, onlyAuthorized, require. rewrite Hno. simpl. eauto.
    - unfold revokeCertificate, onlyAuthorized, require. rewrite Hno. simpl. eauto. }
  split; [|done]. destruct Hcall as [reason E]. unfold execute. by rewrite E.
Qed.

Lemma execute_keeps_record msg c st certId :
  exists_ (cert_at st certId) = true →
  let c0 := cert_at st certId in
  let c1 := cert_at (execute msg c st).1 certId in
  exists_ c1 = true ∧ studentName c1 = studentName c0 ∧ course c1 = course c0 ∧
  grade c1 = grade c0 ∧ issueDate c1 = issueDate c0.
Proof.
  intros He. unfold execute, call. destruct c as [a | cid n co g | cid]; simpl.
  - unfold addInstitution, onlyAdmin, require.
    destruct (bool_decide _); simpl; auto.
  - destruct (issueCertificate msg cid n co g st) as [[st' log]|] eqn:E; simpl; [|auto].
    apply issueCertificate_Ok in E as (_ & Hf & -> & _).
    destruct (decide (certId = cid)) as [->|Hne]; [congruence|].
    rewrite cert_at_insert_ne by done. auto.
  - destruct (revokeCertificate msg cid st) as [[st' log]|] eqn:E; simpl; [|auto].
    apply revokeCertificate_Ok in E as (_ & _ & _ & -> & _).
    destruct (decide (certId = cid)) as [->|Hne].
    + rewrite cert_at_insert_eq; simpl. auto.
    + rewrite cert_at_insert_ne by done. auto.
Qed.

(** X3. A record, once written, keeps its student name, course, grade and
    issue date and stays in existence through every later sequence of
    transactions. *)
Theorem issued_fields_never_change txs : ∀ st certId,
  exists_ (cert_at st certId) = true →
  let c0 := cert_at st certId in
  let c1 := cert_at (run txs st).1 certId in
  exists_ c1 = true ∧ studentName c1 = studentName c0 ∧ course c1 = course c0 ∧
  grade c1 = grade c0 ∧ issueDate c1 = issueDate c0.
Proof.
  induction txs as [|[msg c] rest IH]; intros st certId He; simpl.
  - auto.
  - destruct (execute_keeps_record msg c st certId He) as (He1 & Hn & Hc & Hg & Hd).
    destruct (execute msg c st) as [st1 log1]. simpl in *.
    specialize (IH st1 certId He1).
    destruct (run rest st1) as [st2 log2]. simpl in *.
    destruct IH as (? & ? & ? & ? & ?). repeat split; congruence.
Qed.

Lemma execute_revoked_exist msg c st :
  revoked_exist st → revoked_exist (execute msg c st).1.
Proof.
  intros Hinv cid. destruct (execute_cases msg c st cid)
    as [[-> _] | [(_ & _ & -> & _) | (_ & _ & -> & _)]]; auto.
Qed.

Lemma execute_keeps_revoked msg c st certId :
  revoked_exist st →
  isRevoked (cert_at st certId) = true →
  isRevoked (cert_at (execute msg c st).1 certId) = true.
Proof.
  intros Hinv Hr.
  destruct (execute_cases msg c st certId)
    as [[-> _] | [(He & _) | (_ & Hr' & _)]]; [done | | congruence].
  apply Hinv in Hr. congruence.
Qed.

(** What one transaction logs about one identifier. *)
Lemma execute_events msg c st certId :
  let st1 := (execute msg c st).1 in
  let log1 := (execute msg c st).2 in
  (∀ n, CertificateIssued certId n ∈ log1 ↔
        exists_ (cert_at st certId) = false ∧
        exists_ (cert_at st1 certId) = true ∧
        studentName (cert_at st1 certId) = n) ∧
  (CertificateRevoked certId ∈ log1 ↔
        isRevoked (cert_at st certId) = false ∧
        isRevoked (cert_at st1 certId) = true).
Proof.
  unfold execute, call. destruct c as [a | cid n0 co g | cid]; simpl.
  - unfold addInstitution, onlyAdmin, require.
    destruct (bool_decide _); simpl; unfold cert_at; simpl;
      (split; [intros n|]); rewrite elem_of_nil;
      (split; [done | intros; destruct_and?; congruence]).
  - destruct (issueCertificate msg cid n0 co g st) as [[st' log]|] eqn:E; simpl.
    + apply issueCertificate_Ok in E as (_ & He & -> & ->).
      destruct (decide (certId = cid)) as [->|Hne].
      * rewrite cert_at_insert_eq; simpl. split; [intros n|].
        -- rewrite list_elem_of_singleton. split; [by intros [= ->] | by intros (_ & _ & ->)].
        -- rewrite list_elem_of_singleton. split; [done | by intros [_ ?]].
      * rewrite cert_at_insert_ne by done. rewrite cert_at_eta. split; [intros n|].
        -- rewrite list_elem_of_singleton. split; [intros [= ? ?]; congruence | intros; destruct_and?; congruence].
        -- rewrite list_elem_of_singleton. split; [done | intros; destruct_and?; congruence].
    + split; [intros n|]; rewrite elem_of_nil;
        (split; [done | intros; destruct_and?; congruence]).
  - destruct (revokeCertificate msg cid st) as [[st' log]|] eqn:E; simpl.
    + apply revokeCertificate_Ok in E as (_ & He & Hr & -> & ->).
      destruct (decide (certId = cid)) as [->|Hne].
      * rewrite cert_at_insert_eq; simpl. split; [intros n|].
        -- rewrite list_elem_of_singleton. split; [done | intros; destruct_and?; congruence].
        -- rewrite list_elem_of_singleton. split; [done | done].
      * rewrite cert_at_insert_ne by done. rewrite cert_at_eta. split; [intros n|].
        -- rewrite list_elem_of_singleton. split; [done | intros; destruct_and?; congruence].
        -- rewrite list_elem_of_singleton. split; [intros [= ?]; congruence | intros; destruct_and?; congruence].
    + split; [intros n|]; rewrite elem_of_nil;
        (split; [done | intros; destruct_and?; congruence]).
Qed.

Lemma run_events txs : ∀ st0 certId,
  revoked_exist st0 →
  let st := (run txs st0).1 in
  let log := (run txs st0).2 in
  (exists_ (cert_at st certId) = true ↔
   exists_ (cert_at st0 certId) = true ∨ ∃ n, CertificateIssued certId n ∈ log) ∧
  (∀ n, CertificateIssued certId n ∈ log →
        exists_ (cert_at st0 certId) = false ∧ studentName (cert_at st certId) = n) ∧
  (isRevoked (cert_at st certId) = true ↔
   isRevoked (cert_at st0 certId) = true ∨ CertificateRevoked certId ∈ log).
Proof.
  induction txs as [|[msg c] rest IH]; intros st0 certId Hinv; simpl.
  - split; [|split].
    + split; [auto | intros [?|[n Hn]]; [done | by apply elem_of_nil in Hn]].
    + intros n Hn. by apply elem_of_nil in Hn.
    + split; [auto | intros [?|Hn]; [done | by apply elem_of_nil in Hn]].
  - pose proof (execute_events msg c st0 certId) as [Hiss Hrev].
    pose proof (execute_keeps_record msg c st0 certId) as Hkeep.
    pose proof (execute_keeps_revoked msg c st0 certId Hinv) as Hkeepr.
    pose proof (execute_revoked_exist msg c st0 Hinv) as Hinv1.
    destruct (execute msg c st0) as [st1 log1]. simpl in *.
    pose proof (issued_fields_never_change rest st1 certId) as Himm.
    destruct (IH st1 certId Hinv1) as (IHe & IHn & IHr).
    destruct (run rest st1) as [st2 log2]. simpl in *.
    split; [|split].
    + rewrite IHe. split.
      * intros [He1 | [n Hn]].
        -- destruct (exists_ (cert_at st0 certId)) eqn:He0; [auto|].
           right. exists (studentName (cert_at st1 certId)).
           apply elem_of_app. left. by apply Hiss.
        -- right. exists n. apply elem_of_app. by right.
      * intros [He0 | [n Hn]].
        -- left. by apply Hkeep.
        -- apply elem_of_app in Hn as [Hn | Hn].
           ++ left. by apply Hiss in Hn as (_ & ? & _).
           ++ right. eauto.
    + intros n Hn. apply elem_of_app in Hn as [Hn | Hn].
      * apply Hiss in Hn as (He0 & He1 & Hname). split; [done|].
        destruct (Himm He1) as (_ & -> & _). done.
      * destruct (IHn n Hn) as [He1 Hname]. split; [|done].
        destruct (exists_ (cert_at st0 certId)) eqn:He0; [|done].
        destruct (Hkeep eq_refl) as [? _]. congruence.
    + rewrite IHr. split.
      * intros [Hr1 | Hn].
        -- destruct (isRevoked (cert_at st0 certId)) eqn:Hr0; [auto|].
           right. apply elem_of_app. left. by apply Hrev.
        -- right. apply elem_of_app. by right.
      * intros [Hr0 | Hn].
        -- left. by apply Hkeepr.
        -- apply elem_of_app in Hn as [Hn | Hn].
           ++ left. by apply Hrev in Hn as [_ ?].
           ++ by right.
Qed.

(** X4. The event log tells the storage.  After any sequence of transactions
    on a freshly deployed contract, a record exists exactly when the log
    holds a [CertificateIssued] for its identifier, the student name stored
    is the one in that event, and the record is revoked exactly when the
    log holds a [CertificateRevoked] for it. *)
Theorem log_mirrors_storage deployer txs certId :
  let st := (run txs (constructor deployer)).1 in
  let log := (run txs (constructor deployer)).2 in
  (exists_ (cert_at st certId) = true ↔ ∃ n, CertificateIssued certId n ∈ log) ∧
  (∀ n, CertificateIssued certId n ∈ log → studentName (cert_at st certId) = n) ∧
  (isRevoked (cert_at st certId) = true ↔ CertificateRevoked certId ∈ log).
Proof.
  assert (Hinv : revoked_exist (constructor deployer)).
  { apply reachable_revoked_exist, reachable_deploy. }
  destruct (run_events txs (constructor deployer) certId Hinv) as (He & Hn & Hr).
  assert (H0 : cert_at (constructor deployer) certId = zeroCertificate).
  { unfold cert_at, constructor; simpl. by rewrite lookup_empty. }
  rewrite H0 in *. simpl in *.
  split; [|split].
  - rewrite He. split; [intros [?|?]; [done|auto] | auto].
  - intros n Hin. by apply Hn.
  - rewrite Hr. split; [intros [?|?]; [done|auto] | auto].
Qed.

Lemma unauthorized_sender_changes_nothing_witness :
  execute Sample.outsider (RevokeCertificate "CERT1700000000123") Sample.issued
  = (Sample.issued, []).
Proof.
  refine (proj1 (unauthorized_sender_changes_nothing Sample.issued Sample.outsider
                   (RevokeCertificate "CERT1700000000123") _ _)).
  - apply reachable_step, reachable_deploy.
  - vm_compute. reflexivity.
Defined.

Lemma issued_fields_never_change_witness :
  studentName
    (cert_at (run [(Sample.institution, RevokeCertificate "CERT1700000000123");
                   (Sample.institution,
                    IssueCertificate "CERT1700000000123" "Eve" "Forgery" "A+")]
                  Sample.issued).1 "CERT1700000000123")
  = studentName (cert_at Sample.issued "CERT1700000000123").
Proof.
  refine (proj1 (proj2 (issued_fields_never_change
            [(Sample.institution, RevokeCertificate "CERT1700000000123");
             (Sample.institution,
              IssueCertificate "CERT1700000000123" "Eve" "Forgery" "A+")]
            Sample.issued "CERT1700000000123" _))).
  vm_compute. reflexivity.
Defined.

(** X17. Revocation is not tied to the issuer: a certificate issued by one
    institution can be revoked by any address that is authorized, and
    [verifyCertificate] then reports the issuer's fields with
    [isRevoked = true]. *)
Theorem any_institution_can_revoke issuer other certId n c g st st1 log :
  Registry.issueCertificate issuer certId n c g st = Registry.Ok (st1, log) →
  Registry.authorized st (Registry.sender other) = true →
  ∃ st2,
    Registry.revokeCertificate other certId st1
    = Registry.Ok (st2, [Registry.CertificateRevoked certId]) ∧
    Registry.verifyCertificate certId st2
    = Registry.Ok (n, c, g, Registry.timestamp issuer, true).
Proof.
  intros Hiss Hauth.
  pose proof (RegistryFacts.issueCertificate_Ok _ _ _ _ _ _ _ _ Hiss)
    as (_ & _ & Hst & _).
  assert (Hc : Registry.cert_at st1 certId
               = Registry.mkCertificate n c g (Registry.timestamp issuer) false true).
  { subst st1. apply RegistryFacts.cert_at_insert_eq. }
  destruct (RegistryFacts.revokeCertificate_succeeds other certId st1) as [st2 Hrev].
  - by subst st1.
  - by rewrite Hc.
  - by rewrite Hc.
  - exists st2. split; [done|].
    apply RegistryFacts.revokeCertificate_Ok in Hrev as (_ & _ & _ & -> & _).
    cbv zeta. rewrite RegistryFacts.verifyCertificate_exists;
      rewrite RegistryFacts.cert_at_insert_eq; rewrite Hc; done.
Qed.

Lemma any_institution_can_revoke_witness :
  ∃ st2,
    Registry.revokeCertificate Sample.outsider "CERT1700000000123"
      (Registry.execute Sample.institution Sample.issueAda
         (Registry.execute Sample.institution (Registry.AddInstitution 9%N)
            Sample.deployed).1).1
    = Registry.Ok (st2, [Registry.CertificateRevoked "CERT1700000000123"]) ∧
    Registry.verifyCertificate "CERT1700000000123" st2
    = Registry.Ok ("Ada Lovelace", "Computer Science", "A", 1700000000%Z, true).
Proof.
  refine (any_institution_can_revoke Sample.institution Sample.outsider
            "CERT1700000000123" "Ada Lovelace" "Computer Science" "A"
            (Registry.execute Sample.institution (Registry.AddInstitution 9%N)
               Sample.deployed).1 _
            [Registry.CertificateIssued "CERT1700000000123" "Ada Lovelace"] _ _);
    vm_compute; reflexivity.
Defined.

End RegistryExtras.



(** ** Further properties of the public routes *)

Module BackendExtras.

Import Backend BackendProperties.

Lemma certificate_name_truthy env ext : truthy (Some (newCertId env ++ ext)) = true.
Proof. reflexivity. Qed.

(** The answer of the verify route when the ledger is reached and holds the
    identifier. *)
Lemma verifyRoute_found sv ch cid w n c g d r :
  rpc ch = Online →
  Registry.verifyCertificate cid (ledger w) = Registry.Ok (n, c, g, d, r) →
  verifyRoute sv ch cid w
  = mkOutcome w [LedgerRead cid; DbSelect cid]
      (inr (json (Verified n c g (Number d) r
                    (truthy (rows (db w) !! cid ≫= documentPath))
                    (orNull (rows (db w) !! cid ≫= txHash))
                    (generateQRCode sv cid) (verifyUrl sv cid)))).
Proof.
  intros Hon Hv. unfold_routes. rewrite Hon. norm. rewrite Hv. norm. reflexivity.
Qed.

(** The outcome of an issuance in which nothing fails. *)
Lemma issueRoute_success sv env req w st' :
  let cid := newCertId env in
  let b := sanitize (body req) in
  uploadAccepted (document req) = true →
  validationResult b = [] →
  rpc (chain env) = Online →
  confirmation (chain env) = Online →
  Registry.issueCertificate
    (Registry.mkMsg (wallet sv) (blockTimestamp (chain env))) cid
    (bodyStudentName b) (bodyCourse b) (bodyGrade b) (ledger w)
  = Registry.Ok (st', [Registry.CertificateIssued cid (bodyStudentName b)]) →
  rows (db w) !! cid = None →
  let o := issueRoute sv env req w in
  let docPath := (fun f => cid ++ extname sv (originalname f)) <$> document req in
  value o = inr (json (Issued cid (hash (chain env)) (bool_decide (is_Some (document req)))
                         (generateQRCode sv cid) (verifyUrl sv cid))) ∧
  ledger (world o) = st' ∧
  rows (db (world o)) !! cid
  = Some (mkRow (sequence (db w) + 1) cid (bodyStudentName b) (bodyCourse b)
            (bodyGrade b) (isoDate env) (Some (hash (chain env))) docPath
            (orNull (originalname <$> document req)) None (sqlTimestamp env)) ∧
  (∀ other, other ≠ cid → rows (db (world o)) !! other = rows (db w) !! other) ∧
  (∀ f, document req = Some f →
        uploads (world o) !! (cid ++ extname sv (originalname f)) = Some (content f) ∧
        uploads (world o) !! tempName sv (uploadClock env) f = None).
Proof.
  intros cid b Hup Hval Hrpc Hconf Hiss Hrow o docPath.
  assert (Hcert : ∀ ext f, tempName sv (uploadClock env) f ≠ newCertId env ++ ext).
  { intros ext f. apply temp_is_not_cert. }
  subst o docPath b cid. unfold uploadAccepted in Hup. unfold issueRoute.
  destruct (document req) as [u|] eqn:Hdoc;
    [apply andb_true_iff in Hup as [Hty Hsz%negb_true_iff]|].
  - unfold_routes. rewrite ?Hty, ?Hsz, ?Hval, ?Hrpc, ?Hconf. cbn [negb]. norm.
    rewrite Hiss. norm. rewrite lookup_insert_eq. norm.
    rewrite Hrow. norm.
    pose proof (Hcert (extname sv (originalname u)) u).
    split; [done|]. split; [done|]. split; [by rewrite lookup_insert_eq|].
    split; [intros; by rewrite lookup_insert_ne|].
    intros f0 [= <-]. split; by lookups.
  - unfold_routes. rewrite ?Hval, ?Hrpc, ?Hconf. norm.
    rewrite Hiss. norm. rewrite Hrow. norm.
    split; [done|]. split; [done|]. split; [by rewrite lookup_insert_eq|].
    split; [intros; by rewrite lookup_insert_ne|].
    intros f0 [=].
Qed.

(** X5. Issuance when nothing fails.  For a request whose document (if any)
    passes the upload middleware and whose fields pass validation, with the
    ledger reachable, the wallet authorized, and the generated identifier
    new to the ledger and to the table: the answer carries that identifier
    and the transaction hash; the ledger holds the trimmed fields; the
    table holds one new row pointing at the document; the document sits
    under the identifier's name and no longer under its temporary one; and
    the verify route then answers with the trimmed fields, not revoked,
    with [hasDocument] telling whether a document was attached. *)
Theorem issue_succeeds_and_verifies sv env req w :
  let cid := newCertId env in
  let b := sanitize (body req) in
  uploadAccepted (document req) = true →
  validationResult b = [] →
  rpc (chain env) = Online →
  confirmation (chain env) = Online →
  Registry.authorized (ledger w) (wallet sv) = true →
  Registry.exists_ (Registry.cert_at (ledger w) cid) = false →
  rows (db w) !! cid = None →
  let o := issueRoute sv env req w in
  let docPath := (fun f => cid ++ extname sv (originalname f)) <$> document req in
  value o = inr (json (Issued cid (hash (chain env)) (bool_decide (is_Some (document req)))
                         (generateQRCode sv cid) (verifyUrl sv cid))) ∧
  Registry.verifyCertificate cid (ledger (world o))
  = Registry.Ok (bodyStudentName b, bodyCourse b, bodyGrade b,
                 blockTimestamp (chain env), false) ∧
  rows (db (world o)) !! cid
  = Some (mkRow (sequence (db w) + 1) cid (bodyStudentName b) (bodyCourse b)
            (bodyGrade b) (isoDate env) (Some (hash (chain env))) docPath
            (orNull (originalname <$> document req)) None (sqlTimestamp env)) ∧
  (∀ f, document req = Some f →
        uploads (world o) !! (cid ++ extname sv (originalname f)) = Some (content f) ∧
        uploads (world o) !! tempName sv (uploadClock env) f = None) ∧
  (∀ ch, rpc ch = Online →
     value (verifyRoute sv ch cid (world o))
     = inr (json (Verified (bodyStudentName b) (bodyCourse b) (bodyGrade b)
                    (Number (blockTimestamp (chain env))) false
                    (bool_decide (is_Some (document req)))
                    (orNull (Some (hash (chain env))))
                    (generateQRCode sv cid) (verifyUrl sv cid)))).
Proof.
  intros cid b Hup Hval Hrpc Hconf Hauth Hfresh Hrow o docPath.
  destruct (RegistryFacts.issueCertificate_succeeds
              (Registry.mkMsg (wallet sv) (blockTimestamp (chain env))) cid
              (bodyStudentName b) (bodyCourse b) (bodyGrade b) (ledger w) Hauth Hfresh)
    as [st' Hiss].
  pose proof (RegistryFacts.verify_after_issue _ _ _ _ _ _ _ _ Hiss) as Hver.
  simpl in Hver.
  destruct (issueRoute_success sv env req w st' Hup Hval Hrpc Hconf Hiss Hrow)
    as (Hval' & Hled & Hrow' & _ & Hfiles).
  fold o cid b docPath in Hval', Hled, Hrow', Hfiles.
  split; [done|]. split; [by rewrite Hled|]. split; [done|]. split; [done|].
  intros ch Hon. rewrite <- Hled in Hver.
  rewrite (verifyRoute_found sv ch cid (world o) _ _ _ _ _ Hon Hver).
  cbn [value]. rewrite Hrow'. cbn.
  subst docPath. by destruct (document req).
Qed.

(** X6. The document uploaded at issuance is the one the download route
    works on.  After a successful issuance with a document, the download
    route answers with the uploaded bytes under the identifier's name when
    the stored name's extension, in lower case, is not [.pdf].  When it is,
    the route hands the uploaded bytes to the stamping code: it answers
    with the stamped bytes if the PDF library produces them, and with the
    library's error otherwise (status 500 and the error's message), which
    is what happens for an upload declared as a PDF that does not parse. *)
Theorem issued_document_is_served sv env req w f ch :
  let cid := newCertId env in
  let b := sanitize (body req) in
  document req = Some f →
  uploadAccepted (document req) = true →
  validationResult b = [] →
  rpc (chain env) = Online →
  confirmation (chain env) = Online →
  Registry.authorized (ledger w) (wallet sv) = true →
  Registry.exists_ (Registry.cert_at (ledger w) cid) = false →
  rows (db w) !! cid = None →
  rpc ch = Online →
  let o := issueRoute sv env req w in
  let ext := toLowerCase (extname sv (cid ++ extname sv (originalname f))) in
  value (downloadRoute sv ch cid (world o))
  = inr (if String.eqb ext ".pdf" then
           match stampPages sv (content f) cid (generateQRCode sv cid) with
           | inr stampedPdfBytes =>
               json (Attachment ("stamped_" ++ cid ++ ".pdf") stampedPdfBytes)
           | inl thrown =>
               if includes (message thrown) notFoundText then
                 mkResponse 404 (ErrorMessage "Certificate not found on blockchain")
               else
                 mkResponse 500 (ErrorMessage (message thrown))
           end
         else json (Attachment (cid ++ ext) (content f))).
Proof.
  intros cid b Hdoc Hup Hval Hrpc Hconf Hauth Hfresh Hrow Hon o ext.
  destruct (RegistryFacts.issueCertificate_succeeds
              (Registry.mkMsg (wallet sv) (blockTimestamp (chain env))) cid
              (bodyStudentName b) (bodyCourse b) (bodyGrade b) (ledger w) Hauth Hfresh)
    as [st' Hiss].
  pose proof (RegistryFacts.verify_after_issue _ _ _ _ _ _ _ _ Hiss) as Hver.
  simpl in Hver.
  destruct (issueRoute_success sv env req w st' Hup Hval Hrpc Hconf Hiss Hrow)
    as (_ & Hled & Hrow' & _ & Hfiles).
  fold o cid b in Hled, Hrow', Hfiles.
  destruct (Hfiles f Hdoc) as [Hfile _]. rewrite Hdoc in Hrow'. cbn in Hrow'.
  rewrite <- Hled in Hver. fold cid in Hrow', Hfile.
  clear Hfiles. set (w' := world o) in *. clearbody w'. clear o.
  unfold_routes. rewrite Hon. norm. rewrite Hver. norm. rewrite Hrow'. norm.
  cbn [option_bind documentPath]. norm.
  change (truthy (Some (cid ++ extname sv (originalname f)))) with true.
  cbn [negb]. norm. rewrite Hfile.
  rewrite bool_decide_eq_true_2 by eauto. cbn [negb]. norm. fold cid ext.
  destruct (String.eqb ext ".pdf"); norm; rewrite Hfile; norm; [|done].
  destruct (stampPages sv (content f) cid (generateQRCode sv cid)) as [thrown|?];
    norm; [|done].
  by destruct (includes (message thrown) notFoundText).
Qed.

Lemma unconfirmed_issuance sv env req w :
  let cid := newCertId env in
  let b := sanitize (body req) in
  uploadAccepted (document req) = true →
  validationResult b = [] →
  rpc (chain env) = Online →
  Registry.authorized (ledger w) (wallet sv) = true →
  Registry.exists_ (Registry.cert_at (ledger w) cid) = false →
  (∃ failure, confirmation (chain env) = Offline failure) ∨
  (confirmation (chain env) = Online ∧ is_Some (rows (db w) !! cid)) →
  let o := issueRoute sv env req w in
  (∃ r, value o = inr r ∧ status r = 500) ∧
  Registry.verifyCertificate cid (ledger (world o))
  = Registry.Ok (bodyStudentName b, bodyCourse b, bodyGrade b,
                 blockTimestamp (chain env), false) ∧
  db (world o) = db w ∧
  (∀ f, document req = Some f →
        uploads (world o) !! tempName sv (uploadClock env) f = None ∧
        (confirmation (chain env) = Online →
         uploads (world o) !! (cid ++ extname sv (originalname f)) = Some (content f))) ∧
  (∀ e, e ∈ trace o → e ≠ DbInsert cid).
Proof.
  intros cid b Hup Hval Hrpc Hauth Hfresh Hfail o.
  assert (Hcert : ∀ ext f, tempName sv (uploadClock env) f ≠ newCertId env ++ ext).
  { intros ext f. apply temp_is_not_cert. }
  destruct (RegistryFacts.issueCertificate_succeeds
              (Registry.mkMsg (wallet sv) (blockTimestamp (chain env))) cid
              (bodyStudentName b) (bodyCourse b) (bodyGrade b) (ledger w) Hauth Hfresh)
    as [st' Hiss].
  pose proof (RegistryFacts.verify_after_issue _ _ _ _ _ _ _ _ Hiss) as Hver.
  simpl in Hver.
  subst o b cid. unfold uploadAccepted in Hup. unfold issueRoute.
  destruct (document req) as [u|] eqn:Hdoc;
    [apply andb_true_iff in Hup as [Hty Hsz%negb_true_iff]|].
  all: unfold_routes; rewrite ?Hty, ?Hsz, ?Hval, ?Hrpc; cbn [negb]; norm;
    rewrite Hiss; norm.
  all: destruct Hfail as [[failure Hconf] | [Hconf [old Hold]]]; rewrite Hconf; norm.
  all: lookups; norm; rewrite ?Hold; norm.
  all: try (pose proof (Hcert (extname sv (originalname u)) u); lookups; norm).
  all: repeat (step; norm).
  all: split; [eauto|]. 
  all: split; [done|]. 
  all: split; [done|].
  all: split; [|intros e He; members; done].
  all: try (intros f0 [=]).
  all: subst; split; [by lookups | intros; try congruence; by lookups].
Qed.

(** X7. Nothing undoes a ledger write.  When the transaction is accepted
    but its confirmation never arrives, or the row cannot be inserted
    because the table already has one for the identifier, the request is
    answered with status 500 and the table is as before, yet the ledger
    holds the certificate and the verify route answers with its fields; the
    temporary upload is gone, and in the second case the document already
    sits under the identifier's name. *)
Theorem ledger_write_is_not_rolled_back sv env req w :
  let cid := newCertId env in
  let b := sanitize (body req) in
  uploadAccepted (document req) = true →
  validationResult b = [] →
  rpc (chain env) = Online →
  Registry.authorized (ledger w) (wallet sv) = true →
  Registry.exists_ (Registry.cert_at (ledger w) cid) = false →
  (∃ failure, confirmation (chain env) = Offline failure) ∨
  (confirmation (chain env) = Online ∧ is_Some (rows (db w) !! cid)) →
  let o := issueRoute sv env req w in
  (∃ r, value o = inr r ∧ status r = 500) ∧
  Registry.verifyCertificate cid (ledger (world o))
  = Registry.Ok (bodyStudentName b, bodyCourse b, bodyGrade b,
                 blockTimestamp (chain env), false) ∧
  db (world o) = db w ∧
  (∀ f, document req = Some f →
        uploads (world o) !! tempName sv (uploadClock env) f = None ∧
        (confirmation (chain env) = Online →
         uploads (world o) !! (cid ++ extname sv (originalname f)) = Some (content f))) ∧
  (∀ e, e ∈ trace o → e ≠ DbInsert cid) ∧
  (∀ ch, rpc ch = Online →
     value (verifyRoute sv ch cid (world o))
     = inr (json (Verified (bodyStudentName b) (bodyCourse b) (bodyGrade b)
                    (Number (blockTimestamp (chain env))) false
                    (truthy (rows (db w) !! cid ≫= documentPath))
                    (orNull (rows (db w) !! cid ≫= txHash))
                    (generateQRCode sv cid) (verifyUrl sv cid)))).
Proof.
  intros cid b Hup Hval Hrpc Hauth Hfresh Hfail o.
  destruct (unconfirmed_issuance sv env req w Hup Hval Hrpc Hauth Hfresh Hfail)
    as (Hst & Hver & Hdb & Hfiles & Htrace).
  fold o cid b in Hst, Hver, Hdb, Hfiles, Htrace.
  repeat (split; [done|]).
  intros ch Hon. rewrite (verifyRoute_found sv ch cid (world o) _ _ _ _ _ Hon Hver).
  cbn [value]. by rewrite Hdb.
Qed.

(** X8. Deleting twice.  Whatever the first authenticated delete of an
    identifier did, a second one answers 404 "Certificate not found" and
    changes nothing; so does the first when the table has no row for the
    identifier. *)
Theorem delete_is_idempotent cid w :
  let first := deleteRoute ValidToken cid w in
  let second := deleteRoute ValidToken cid (world first) in
  value second = inr (mkResponse 404 (ErrorMessage "Certificate not found")) ∧
  world second = world first ∧
  (rows (db w) !! cid = None →
   value first = inr (mkResponse 404 (ErrorMessage "Certificate not found")) ∧
   world first = w).
Proof.
  assert (Hmiss : ∀ w', rows (db w') !! cid = None →
            deleteRoute ValidToken cid w'
            = mkOutcome w' [DbSelect cid]
                (inr (mkResponse 404 (ErrorMessage "Certificate not found")))).
  { intros w' Hnone. unfold_routes. norm. rewrite Hnone. norm. reflexivity. }
  assert (Hgone : rows (db (world (deleteRoute ValidToken cid w))) !! cid = None).
  { destruct (rows (db w) !! cid) as [row|] eqn:Hrow.
    - unfold_routes. norm. rewrite Hrow. norm. repeat (step; norm).
      all: unfold Datatypes.id in *; simplify_eq.
      all: by rewrite lookup_delete_eq.
    - by rewrite Hmiss. }
  intros first second. subst first second.
  rewrite (Hmiss _ Hgone). split; [done|]. split; [done|].
  intros Hnone. by rewrite Hmiss.
Qed.

(** X9. The verify, certificate-PDF and download routes leave the ledger,
    the table and the uploads directory as they found them, on every
    input and whatever the state of the connection. *)
Theorem reading_routes_change_nothing sv ch logo cid w :
  world (verifyRoute sv ch cid w) = w ∧
  world (pdfRoute sv ch logo cid w) = w ∧
  world (downloadRoute sv ch cid w) = w.
Proof.
  split; [|split]; run; done.
Qed.

(** X10. The validation chains of the issue route accept a body exactly
    when, after trimming, the student name and the course have 2 to 100
    characters and the grade has 1 to 50. *)
Theorem validation_accepts_exactly_the_bounds b :
  validationResult (sanitize b) = [] ↔
  (2 ≤ String.length (trim (bodyStudentName b)) ≤ 100 ∧
   2 ≤ String.length (trim (bodyCourse b)) ≤ 100 ∧
   1 ≤ String.length (trim (bodyGrade b)) ≤ 50)%nat.
Proof.
  split.
  - intros Hval.
    destruct (decide (2 ≤ String.length (trim (bodyStudentName b)) ≤ 100 ∧
                      2 ≤ String.length (trim (bodyCourse b)) ≤ 100 ∧
                      1 ≤ String.length (trim (bodyGrade b)) ≤ 50)%nat) as [|Hno];
      [done|].
    exfalso. apply (validation_catches (sanitize b)); [|done]. simpl. lia.
  - intros H. by apply validation_passes.
Qed.

Lemma issue_succeeds_and_verifies_witness :
  value (issueRoute Sample.services Sample.laterEnv Sample.request Sample.ledgerOnly)
  = inr (json (Issued "CERT1700000000999" "0xabc" true
                 "data:image/png;base64,http://localhost:3000/verify/CERT1700000000999"
                 "http://localhost:3000/verify/CERT1700000000999")).
Proof.
  refine (proj1 (issue_succeeds_and_verifies Sample.services Sample.laterEnv
                   Sample.request Sample.ledgerOnly _ _ _ _ _ _ _));
    vm_compute; reflexivity.
Defined.

Lemma issued_document_is_served_witness :
  value (downloadRoute Sample.services Sample.online "CERT1700000000999"
           (world (issueRoute Sample.services Sample.laterEnv
                     AdminSample.photoRequest Sample.ledgerOnly)))
  = inr (json (Attachment "CERT1700000000999.png" "PNG bytes")).
Proof.
  refine (issued_document_is_served Sample.services Sample.laterEnv
            AdminSample.photoRequest Sample.ledgerOnly AdminSample.photo
            Sample.online _ _ _ _ _ _ _ _ _);
    vm_compute; reflexivity.
Defined.

Lemma ledger_write_is_not_rolled_back_witness :
  db (world (issueRoute Sample.services AdminSample.unconfirmedEnv Sample.request
               Sample.ledgerOnly))
  = db Sample.ledgerOnly.
Proof.
  refine (proj1 (proj2 (proj2 (ledger_write_is_not_rolled_back Sample.services
            AdminSample.unconfirmedEnv Sample.request Sample.ledgerOnly
            _ _ _ _ _ _)))).
  1-5: vm_compute; reflexivity.
  left. eexists. reflexivity.
Defined.

(** X19. Downloads without a document.  For a certificate the ledger
    holds unrevoked, the download route answers 404 "No document found for
    this certificate" when the table has no row for it or the row names no
    document, and 404 "Document file not found" when the row names a file
    that is not in the uploads directory. *)
Theorem download_without_document sv ch cid w :
  rpc ch = Online →
  Registry.exists_ (Registry.cert_at (ledger w) cid) = true →
  Registry.isRevoked (Registry.cert_at (ledger w) cid) = false →
  let o := downloadRoute sv ch cid w in
  (truthy (rows (db w) !! cid ≫= documentPath) = false →
   value o = inr (mkResponse 404 (ErrorMessage "No document found for this certificate"))) ∧
  (∀ doc, rows (db w) !! cid ≫= documentPath = Some doc → doc ≠ "" →
     uploads w !! doc = None →
     value o = inr (mkResponse 404 (ErrorMessage "Document file not found"))).
Proof.
  intros Hon Hex Hrev o. subst o.
  pose proof (RegistryFacts.verifyCertificate_exists _ _ Hex) as Hver.
  rewrite Hrev in Hver. split.
  - intros Hnone. unfold_routes. rewrite Hon. norm. rewrite Hver. norm.
    destruct (option_bind _ _ documentPath (rows (db w) !! cid)) as [doc|]; [|done].
    rewrite Hnone. done.
  - intros doc Hdoc Hne Hmiss.
    assert (Ht : truthy (Some doc) = true).
    { unfold truthy. by apply negb_true_iff, String.eqb_neq. }
    unfold_routes. rewrite Hon. norm. rewrite Hver. norm.
    rewrite Hdoc, Ht. cbn [negb]. norm. rewrite Hmiss.
    rewrite bool_decide_eq_false_2 by apply is_Some_None. done.
Qed.

Lemma download_without_document_witness :
  value (downloadRoute Sample.services Sample.online "CERT1700000000123"
           Sample.ledgerOnly)
  = inr (mkResponse 404 (ErrorMessage "No document found for this certificate")).
Proof.
  refine (proj1 (download_without_document Sample.services Sample.online
                   "CERT1700000000123" Sample.ledgerOnly _ _ _) _);
    vm_compute; reflexivity.
Defined.

(** X20. The verify route trusts the ledger only.  Its answer is the same
    in two worlds with the same ledger whose rows for the identifier agree
    on [documentPath] and [txHash]: the student name, course, grade and
    date kept in the table, the other rows and the uploads directory play
    no part. *)
Theorem verify_answers_from_the_ledger sv ch cid w1 w2 :
  ledger w1 = ledger w2 →
  rows (db w1) !! cid ≫= documentPath = rows (db w2) !! cid ≫= documentPath →
  rows (db w1) !! cid ≫= txHash = rows (db w2) !! cid ≫= txHash →
  value (verifyRoute sv ch cid w1) = value (verifyRoute sv ch cid w2).
Proof.
  intros Hled Hdoc Htx. unfold_routes.
  destruct (rpc ch); norm; [|by destruct (includes _ _)].
  rewrite Hled.
  destruct (Registry.verifyCertificate cid (ledger w2))
    as [[[[[n c] g] d] r]|reason]; norm; [|by destruct (includes _ _)].
  by rewrite Hdoc, Htx.
Qed.

Lemma verify_answers_from_the_ledger_witness :
  value (verifyRoute Sample.services Sample.online "CERT1700000000123" Sample.mirrored)
  = value (verifyRoute Sample.services Sample.online "CERT1700000000123"
             (mkWorld Sample.issued
                (mkDatabase
                   {[ "CERT1700000000123" :=
                        mkRow 1 "CERT1700000000123" "Somebody Else" "Alchemy" "F"
                          "1999-01-01T00:00:00.000Z" (Some "0xabc")
                          (Some "CERT1700000000123.pdf") None (Some "edited") "" ]} 1)
                ∅)).
Proof.
  refine (verify_answers_from_the_ledger Sample.services Sample.online
            "CERT1700000000123" Sample.mirrored _ _ _ _);
    vm_compute; reflexivity.
Defined.

End BackendExtras.


(** ** Properties of the administrative routes *)

Module AdminProperties.

Import Backend BackendProperties Admin.

Ltac unfold_admin :=
  unfold revokeRoute, updateRoute, updateHandler, statsRoute, authenticated,
    contract_revokeCertificate, db_update, db_all, refuse in *;
  unfold_routes.

Ltac run_admin := unfold_admin; norm; repeat (step; norm).

Lemma revoke_reverts msg cid st reason :
  Registry.revokeCertificate msg cid st = Registry.Revert reason →
  reason = (if Registry.authorized st (Registry.sender msg)
            then if Registry.exists_ (Registry.cert_at st cid)
                 then "Already revoked" else "Certificate does not exist"
            else "Not authorized").
Proof.
  unfold Registry.revokeCertificate, Registry.onlyAuthorized, Registry.require.
  destruct (Registry.authorized st (Registry.sender msg)); simpl; [|by intros [= <-]].
  destruct (Registry.exists_ (Registry.cert_at st cid)); simpl; [|by intros [= <-]].
  destruct (Registry.isRevoked (Registry.cert_at st cid)); simpl; [by intros [= <-]|done].
Qed.

(** X11. The revoke route on a live certificate.  With a valid token, the
    ledger reachable and confirming, the wallet authorized, and a record
    that exists and is not revoked: the answer is the transaction hash, the
    table and the uploads directory are untouched, the ledger record is now
    revoked with its other fields as before, no other record changed, and
    from then on the certificate-PDF and download routes answer 400
    "Certificate has been revoked". *)
Theorem revoke_route_revokes sv reading writing cid w :
  rpc reading = Online →
  rpc writing = Online →
  confirmation writing = Online →
  Registry.authorized (ledger w) (wallet sv) = true →
  Registry.exists_ (Registry.cert_at (ledger w) cid) = true →
  Registry.isRevoked (Registry.cert_at (ledger w) cid) = false →
  let o := revokeRoute sv ValidToken reading writing cid w in
  let c := Registry.cert_at (ledger w) cid in
  value o = inr (inr (RevokedOk (hash writing))) ∧
  db (world o) = db w ∧
  uploads (world o) = uploads w ∧
  Registry.verifyCertificate cid (ledger (world o))
  = Registry.Ok (Registry.studentName c, Registry.course c, Registry.grade c,
                 Registry.issueDate c, true) ∧
  (∀ other, other ≠ cid →
     Registry.cert_at (ledger (world o)) other = Registry.cert_at (ledger w) other) ∧
  (∀ ch logo, rpc ch = Online →
     value (pdfRoute sv ch logo cid (world o))
     = inr (mkResponse 400 (ErrorMessage revokedText)) ∧
     value (downloadRoute sv ch cid (world o))
     = inr (mkResponse 400 (ErrorMessage revokedText))).
Proof.
  intros Hread Hwrite Hconf Hauth Hex Hrev o c.
  destruct (RegistryFacts.revokeCertificate_succeeds
              (Registry.mkMsg (wallet sv) (blockTimestamp writing)) cid (ledger w)
              Hauth Hex Hrev) as [st' Hok].
  pose proof (RegistryFacts.revokeCertificate_Ok _ _ _ _ _ Hok) as (_ & _ & _ & Hst & _).
  assert (Hc : Registry.cert_at st' cid
               = Registry.mkCertificate (Registry.studentName c) (Registry.course c)
                   (Registry.grade c) (Registry.issueDate c) true true).
  { subst st'. cbv zeta. rewrite RegistryFacts.cert_at_insert_eq. by rewrite Hex. }
  assert (Hmain : value o = inr (inr (RevokedOk (hash writing))) ∧
                  world o = mkWorld st' (db w) (uploads w)).
  { subst o. unfold_admin. rewrite Hread, Hwrite, Hconf. norm.
    rewrite (RegistryFacts.verifyCertificate_exists _ _ Hex). norm.
    rewrite Hok. norm. done. }
  destruct Hmain as [Hval Hw]. rewrite Hw. cbn [ledger db uploads].
  split; [done|]. split; [done|]. split; [done|]. split; [|split].
  - rewrite RegistryFacts.verifyCertificate_exists; rewrite Hc; done.
  - intros other Hne. subst st'. cbv zeta.
    by rewrite RegistryFacts.cert_at_insert_ne.
  - intros ch logo Hon.
    destruct (pdfRoute_cases sv ch logo cid (mkWorld st' (db w) (uploads w))) as [Hp _].
    destruct (downloadRoute_cases sv ch cid (mkWorld st' (db w) (uploads w))) as [Hd _].
    cbn [ledger] in Hp, Hd. rewrite Hc in Hp, Hd. split; [by apply Hp | by apply Hd].
Qed.

(** X12. What the revoke route refuses.  The route never touches the table
    or the uploads directory.  With a valid token and the ledger reachable,
    nothing changes in any of three cases.  An identifier the ledger does
    not hold is answered 404.  For a wallet that is not authorized the
    transaction reverts with "Not authorized", and the answer is status 500
    with the client's whole message for that revert.  A record revoked
    already is answered 400 "Certificate is already revoked".  The route
    tells the cases apart by looking for "Certificate does not exist" and
    "Already revoked" in the message, so the last two answers are stated
    for a client whose own text around the reason does not hold a phrase
    the route tests for earlier. *)
Theorem revoke_route_refusals sv who reading writing cid w :
  let o := revokeRoute sv who reading writing cid w in
  db (world o) = db w ∧
  uploads (world o) = uploads w ∧
  (who = ValidToken → rpc reading = Online → rpc writing = Online →
   (Registry.exists_ (Registry.cert_at (ledger w) cid) = false →
    value o = inr (refuse 404 "Certificate not found on blockchain") ∧ world o = w) ∧
   (Registry.exists_ (Registry.cert_at (ledger w) cid) = true →
    Registry.authorized (ledger w) (wallet sv) = false →
    world o = w ∧
    (includes (callException writing "Not authorized") notFoundText = false →
     includes (callException writing "Not authorized") alreadyRevokedText = false →
     value o = inr (refuse 500 (callException writing "Not authorized")))) ∧
   (Registry.exists_ (Registry.cert_at (ledger w) cid) = true →
    Registry.authorized (ledger w) (wallet sv) = true →
    Registry.isRevoked (Registry.cert_at (ledger w) cid) = true →
    world o = w ∧
    (includes (callException writing alreadyRevokedText) notFoundText = false →
     value o = inr (refuse 400 "Certificate is already revoked")))).
Proof.
  intros o. split; [|split].
  - subst o. run_admin; done.
  - subst o. run_admin; done.
  - intros -> Hread Hwrite. subst o.
    split; [|split].
    + intros Hex. unfold_admin. rewrite Hread. norm.
      rewrite (RegistryFacts.verifyCertificate_missing _ _ Hex). norm.
      change (callException reading "Certificate does not exist")
        with (callException reading notFoundText).
      rewrite revert_text_found. done.
    + intros Hex Hauth. unfold_admin. rewrite Hread, Hwrite. norm.
      rewrite (RegistryFacts.verifyCertificate_exists _ _ Hex). norm.
      destruct (Registry.revokeCertificate _ cid (ledger w)) as [[st' log]|reason] eqn:E.
      { apply RegistryFacts.revokeCertificate_Ok in E as (Ha & _). simpl in Ha. congruence. }
      apply revoke_reverts in E. simpl in E. rewrite Hauth in E. subst reason.
      norm. split.
      * by repeat (destruct (includes _ _); norm).
      * intros -> ->. done.
    + intros Hex Hauth Hrev. unfold_admin. rewrite Hread, Hwrite. norm.
      rewrite (RegistryFacts.verifyCertificate_exists _ _ Hex). norm.
      destruct (Registry.revokeCertificate _ cid (ledger w)) as [[st' log]|reason] eqn:E.
      { apply RegistryFacts.revokeCertificate_Ok in E as (_ & _ & Hr & _). congruence. }
      apply revoke_reverts in E. simpl in E. rewrite Hauth, Hex in E. subst reason.
      norm. split.
      * by repeat (destruct (includes _ _); norm).
      * intros Hno. unfold alreadyRevokedText in *.
        rewrite Hno, revert_text_found. done.
Qed.

Lemma bind_outcome {A B} (m : M A) (k : A → M B) w w1 t1 a :
  m w = mkOutcome w1 t1 (inr a) →
  (m ≫= k) w
  = match k a w1 with
    | mkOutcome w2 t2 v => mkOutcome w2 (t1 ++ t2)%list v
    end.
Proof. intros H. unfold mbind, M_bind. by rewrite H. Qed.

(** One turn of the loop of the stats route. *)
Lemma count_one net cert r v w :
  ∃ t,
    try_catch
      (result ← contract_verifyCertificate (net (certId cert)) (certId cert);
       let '(_, _, _, _, revoked) := result in
       if revoked : bool then mret (S r, v) else mret (r, S v))
      (fun _ => mret (r, v)) w
    = mkOutcome w t
        (inr (r + (if decide (standing net (ledger w) cert = Some true) then 1 else 0),
              v + (if decide (standing net (ledger w) cert = Some false) then 1 else 0))%nat).
Proof.
  assert (Hshape : ∀ t (r' v' : nat) a b,
            r' = (r + a)%nat → v' = (v + b)%nat →
            mkOutcome (A:=nat * nat) w t (inr (r', v'))
            = mkOutcome w t (inr ((r + a)%nat, (v + b)%nat))).
  { by intros t r' v' a b -> ->. }
  unfold standing. unfold_routes. norm.
  destruct (rpc (net (certId cert))) as [|failure]; norm.
  - destruct (Registry.verifyCertificate (certId cert) (ledger w))
      as [[[[[n c] g] d] rev]|reason] eqn:E; norm.
    + apply RegistryFacts.verifyCertificate_Ok in E as [He E]. rewrite He.
      injection E as _ _ _ _ <-.
      destruct rev; norm;
        eexists; apply Hshape; repeat case_decide; try done; lia.
    + apply verify_revert in E as [_ He]. rewrite He.
      eexists; apply Hshape; repeat case_decide; try done; lia.
  - eexists; apply Hshape; repeat case_decide; try done; lia.
Qed.

(** The loop of the stats route: the stores are as before, and each row
    adds one to the counter its [standing] names. *)
Lemma tally_counts net certs : ∀ r v w,
  ∃ t, tally net certs r v w
       = mkOutcome w t
           (inr (r + length (filter (fun c => standing net (ledger w) c = Some true) certs),
                 v + length (filter (fun c => standing net (ledger w) c = Some false) certs))%nat).
Proof.
  induction certs as [|cert rest IH]; intros r v w.
  - exists []. cbn. by rewrite !Nat.add_0_r.
  - cbn [tally]. destruct (count_one net cert r v w) as [t1 H1].
    rewrite (bind_outcome _ _ _ _ _ _ H1). cbn [fst snd].
    destruct (IH (r + (if decide (standing net (ledger w) cert = Some true)
                       then 1 else 0))%nat
                 (v + (if decide (standing net (ledger w) cert = Some false)
                       then 1 else 0))%nat w)
      as [t2 H2].
    rewrite H2. eexists. f_equal. f_equal.
    rewrite !filter_cons. repeat case_decide; simpl; f_equal; lia.
Qed.

(** X13. The stats route counts what the ledger answers.  With a valid
    token the route changes nothing and answers with the number of rows,
    the number of rows the ledger reports valid, the number it reports
    revoked, and the number of rows with a document.  A row whose ledger
    call fails (connection down, or no such certificate) is in neither
    count, so valid plus revoked never exceeds the total, and with the
    ledger unreachable both are zero. *)
Theorem stats_count_what_the_ledger_answers net w :
  let o := statsRoute ValidToken net w in
  let certs := (map_to_list (rows (db w))).*2 in
  let valid := length (filter (fun c => standing net (ledger w) c = Some false) certs) in
  let revoked := length (filter (fun c => standing net (ledger w) c = Some true) certs) in
  world o = w ∧
  value o = inr (inr (Stats (size (rows (db w))) valid revoked
                        (length (filter (fun c => truthy (documentPath c) = true) certs)))) ∧
  (valid + revoked ≤ size (rows (db w)))%nat ∧
  ((∀ cid, ∃ failure, rpc (net cid) = Offline failure) → valid = 0%nat ∧ revoked = 0%nat).
Proof.
  intros o certs valid revoked.
  assert (Hlen : length certs = size (rows (db w))).
  { subst certs. by rewrite length_fmap, length_map_to_list. }
  split; [|split; [|split]].
  - subst o. unfold statsRoute, authenticated, db_all, try_catch, get. norm.
    destruct (tally_counts net certs 0 0 w) as [t Ht]. fold certs. rewrite Ht. done.
  - subst o. unfold statsRoute, authenticated, db_all, try_catch, get. norm.
    destruct (tally_counts net certs 0 0 w) as [t Ht]. fold certs. rewrite Ht.
    cbn. by rewrite Hlen.
  - rewrite <- Hlen. subst valid revoked. clear. induction certs as [|c rest IH]; [done|].
    rewrite !filter_cons. repeat case_decide; simpl; try lia. congruence.
  - intros Hoff. subst valid revoked. clear -Hoff.
    induction certs as [|c rest [IH1 IH2]]; [done|].
    rewrite !filter_cons.
    assert (Hnone : standing net (ledger w) c = None).
    { unfold standing. destruct (Hoff (certId c)) as [failure ->]. done. }
    rewrite Hnone. repeat case_decide; done.
Qed.

(** X14. Replacing a document.  For an authenticated update of a row with
    an accepted upload: the answer is the updated row, whose
    [documentPath] is the identifier followed by the upload's extension
    and whose [documentOriginalName] is the upload's name, with [notes]
    replaced when the request has them and every other column as before;
    the uploaded bytes sit under the new name, the temporary name and the
    previous document are gone, no other file changed, and the ledger is
    untouched. *)
Theorem update_replaces_document sv now cid req w row f :
  let temp := tempName sv now f in
  let final := cid ++ extname sv (originalname f) in
  rows (db w) !! cid = Some row →
  replacement req = Some f →
  uploadAccepted (Some f) = true →
  documentPath row ≠ Some temp →
  let o := updateRoute sv ValidToken now cid req w in
  let row' :=
    mkRow (id row) (certId row) (studentName row) (course row) (grade row)
      (issueDate row) (txHash row) (Some final) (Some (originalname f))
      (match notesField req with Some text => Some text | None => notes row end)
      (createdAt row) in
  value o = inr (inr (Updated (Some row'))) ∧
  db (world o) = mkDatabase (<[ cid := row' ]> (rows (db w))) (sequence (db w)) ∧
  uploads (world o) !! final = Some (content f) ∧
  (temp ≠ final → uploads (world o) !! temp = None) ∧
  (∀ old, documentPath row = Some old → old ≠ "" → old ≠ final →
          uploads (world o) !! old = None) ∧
  (∀ name, name ≠ temp → name ≠ final → documentPath row ≠ Some name →
          uploads (world o) !! name = uploads w !! name) ∧
  ledger (world o) = ledger w.
Proof.
  intros temp final Hrow Hfile Hacc Hold o row'.
  subst o row'. unfold uploadAccepted in Hacc.
  apply andb_true_iff in Hacc as [Hty Hsz%negb_true_iff].
  unfold updateRoute. rewrite Hfile. unfold_admin. rewrite Hty, Hsz. cbn [negb]. norm.
  rewrite Hrow. norm. fold temp final.
  assert (Hgoal : ∀ fs : gmap string string,
    fs !! temp = Some (content f) →
    (∀ old, documentPath row = Some old → old ≠ "" → fs !! old = None) →
    (∀ name, name ≠ temp → documentPath row ≠ Some name → fs !! name = uploads w !! name) →
    let fs' := <[ final := content f ]> (delete temp fs) in
    fs' !! final = Some (content f) ∧
    (temp ≠ final → fs' !! temp = None) ∧
    (∀ old, documentPath row = Some old → old ≠ "" → old ≠ final → fs' !! old = None) ∧
    (∀ name, name ≠ temp → name ≠ final → documentPath row ≠ Some name →
             fs' !! name = uploads w !! name)).
  { intros fs Htemp Hgone Hother fs'. subst fs'. split; [by rewrite lookup_insert_eq|].
    split; [intros; by lookups|]. split.
    - intros old Ho Hne Hnf. assert (old ≠ temp) by congruence. lookups. by apply Hgone.
    - intros name ? ? ?. lookups. by apply Hother. }
  unfold truthy. destruct (documentPath row) as [old|] eqn:Hdoc; cbn [default negb].
  - destruct (String.eqb old "") eqn:Hempty; cbn [negb]; norm.
    + apply String.eqb_eq in Hempty as ->.
      rewrite lookup_insert_eq. norm.
      destruct (notesField req); norm; rewrite Hrow; norm; rewrite lookup_insert_eq;
        (split; [done|]; split; [done|]).
      all: edestruct Hgoal as (? & ? & ? & ?);
        [by rewrite lookup_insert_eq | by intros ? [= <-] | | by repeat split].
      all: intros; by rewrite lookup_insert_ne.
    + apply String.eqb_neq in Hempty.
      assert (Hne : old ≠ temp) by congruence.
      unfold Datatypes.id. rewrite lookup_insert_ne by done.
      destruct (uploads w !! old) as [bytes|] eqn:Hpresent;
        [rewrite bool_decide_eq_true_2 by eauto
        |rewrite bool_decide_eq_false_2 by apply is_Some_None]; norm.
      * rewrite lookup_insert_ne by done. rewrite Hpresent. norm.
        rewrite lookup_delete_ne by done. rewrite lookup_insert_eq. norm.
        destruct (notesField req); norm; rewrite Hrow; norm; rewrite lookup_insert_eq;
          (split; [done|]; split; [done|]).
        all: edestruct Hgoal as (? & ? & ? & ?);
          [ rewrite lookup_delete_ne by done; by rewrite lookup_insert_eq
          | intros ? [= <-] _; by rewrite lookup_delete_eq
          | | by repeat split].
        all: intros name ? Hn; assert (name ≠ old) by congruence;
          rewrite lookup_delete_ne by done; by rewrite lookup_insert_ne.
      * rewrite lookup_insert_eq. norm.
        destruct (notesField req); norm; rewrite Hrow; norm; rewrite lookup_insert_eq;
          (split; [done|]; split; [done|]).
        all: edestruct Hgoal as (? & ? & ? & ?);
          [ by rewrite lookup_insert_eq
          | intros ? [= <-] _; by rewrite lookup_insert_ne
          | | by repeat split].
        all: intros; by rewrite lookup_insert_ne.
  - norm. rewrite lookup_insert_eq. norm.
    destruct (notesField req); norm; rewrite Hrow; norm; rewrite lookup_insert_eq;
      (split; [done|]; split; [done|]).
    all: edestruct Hgoal as (? & ? & ? & ?);
      [by rewrite lookup_insert_eq | by intros ? [=] | | by repeat split].
    all: intros; by rewrite lookup_insert_ne.
Qed.

(** X15. The update route's frame.  On every input the route leaves the
    ledger, the row counter and every other row as they were, and without
    an upload it leaves the uploads directory as it was.  For an identifier
    without a row the table is unchanged and the authenticated answer is
    404; a notes-only update rewrites the [notes] column and nothing else
    of the row. *)
Theorem update_touches_one_row sv who now cid req w :
  let o := updateRoute sv who now cid req w in
  ledger (world o) = ledger w ∧
  sequence (db (world o)) = sequence (db w) ∧
  (∀ other, other ≠ cid → rows (db (world o)) !! other = rows (db w) !! other) ∧
  (replacement req = None → uploads (world o) = uploads w) ∧
  (rows (db w) !! cid = None →
   db (world o) = db w ∧
   (who = ValidToken → uploadAccepted (replacement req) = true →
    value o = inr (refuse 404 "Certificate not found"))) ∧
  (∀ row text, who = ValidToken → replacement req = None →
     rows (db w) !! cid = Some row → notesField req = Some text →
     rows (db (world o)) !! cid
     = Some (mkRow (id row) (certId row) (studentName row) (course row) (grade row)
               (issueDate row) (txHash row) (documentPath row)
               (documentOriginalName row) (Some text) (createdAt row))).
Proof.
  intros o. subst o. unfold uploadAccepted, updateRoute, updateHandler.
  split; [|split; [|split; [|split; [|split]]]].
  - run_admin; done.
  - run_admin; done.
  - intros other Hne. run_admin; try done; by rewrite lookup_insert_ne.
  - intros Hnofile. rewrite Hnofile. run_admin; done.
  - intros Hnone. split.
    + run_admin; try done; congruence.
    + intros -> Hacc. destruct (replacement req) as [f|].
      * apply andb_true_iff in Hacc as [Hty Hsz%negb_true_iff].
        unfold_admin. rewrite Hty, Hsz. cbn [negb]. norm. by rewrite Hnone.
      * unfold_admin. norm. by rewrite Hnone.
  - intros row text -> Hnofile Hrow Hnotes. rewrite Hnofile, Hnotes.
    unfold_admin. norm. rewrite Hrow. norm.
    rewrite Hrow. norm. by rewrite lookup_insert_eq.
Qed.

(** [trim] leaves no white space at either end, so trimming twice is
    trimming once. *)
Lemma ltrim_head s c rest : ltrim s = String c rest → isSpace c = false.
Proof.
  induction s as [|a s IH]; simpl; [done|].
  destruct (isSpace a) eqn:Ha; [done|]. intros [= <- _]. done.
Qed.

Lemma rtrim_idempotent s : rtrim (rtrim s) = rtrim s.
Proof.
  induction s as [|a s IH]; simpl; [done|].
  destruct (rtrim s) as [|b kept] eqn:E.
  - destruct (isSpace a) eqn:Ha; simpl; [done|]. by rewrite Ha.
  - simpl in IH. simpl. by rewrite IH.
Qed.

Lemma rtrim_head c rest : isSpace c = false → rtrim (String c rest) = String c (rtrim rest).
Proof. intros Hc. simpl. destruct (rtrim rest); [by rewrite Hc | done]. Qed.

Lemma trim_idempotent s : trim (trim s) = trim s.
Proof.
  unfold trim. destruct (ltrim s) as [|c rest] eqn:E; [done|].
  pose proof (ltrim_head _ _ _ E) as Hc.
  rewrite (rtrim_head _ _ Hc). cbn [ltrim]. rewrite Hc.
  rewrite (rtrim_head _ _ Hc). by rewrite rtrim_idempotent.
Qed.

(** The handler behind the limiters. *)
Lemma loginHandler_answers acc b :
  ((∃ token user, loginHandler acc b = inr (LoggedIn token user)) ↔
   trim (username b) = ADMIN_USERNAME acc ∧ password b = ADMIN_PASSWORD acc ∧
   ADMIN_USERNAME acc ≠ "" ∧ ADMIN_PASSWORD acc ≠ "") ∧
  (∀ token user, loginHandler acc b = inr (LoggedIn token user) →
     user = ADMIN_USERNAME acc ∧ token = sign acc (ADMIN_USERNAME acc) ∧
     trim (ADMIN_USERNAME acc) = ADMIN_USERNAME acc) ∧
  (trim (username b) = "" ∨ password b = "" →
   ∃ details, loginHandler acc b = inl (mkResponse 400 (ValidationFailed details))).
Proof.
  unfold loginHandler, loginValidation, notEmpty, refuse.
  destruct (String.eqb_spec (trim (username b)) "") as [Hu|Hu];
    destruct (String.eqb_spec (password b) "") as [Hp|Hp]; cbn.
  1-3: split; [split; [by intros (? & ? & ?) | intros (? & ? & ? & ?); congruence]|];
       (split; [done | eauto]).
  destruct (String.eqb_spec (trim (username b)) (ADMIN_USERNAME acc)) as [Hau|Hau];
    destruct (String.eqb_spec (password b) (ADMIN_PASSWORD acc)) as [Hap|Hap]; cbn.
  2-4: split; [split; [by intros (? & ? & ?) | intros (? & ? & ? & ?); congruence]|];
       (split; [done | intros [?|?]; congruence]).
  split; [|split].
  - split; [intros _; repeat split; congruence | eauto].
  - intros token user [= <- <-]. rewrite <- Hau. by rewrite trim_idempotent.
  - intros [?|?]; congruence.
Qed.

(** Only a login has a status below 400. *)
Lemma loginHandler_successful acc b :
  successful (loginHandler acc b) = true ↔
  ∃ token user, loginHandler acc b = inr (LoggedIn token user).
Proof.
  unfold loginHandler, refuse.
  destruct (loginValidation b).
  2:{ cbn. split; [done|]. intros (? & ? & ?). done. }
  cbn zeta.
  destruct (_ && _); cbn; [split; eauto|].
  by split; [|intros (? & ? & ?)].
Qed.

(** X16. Who can log in.  A request to the login route is answered with a
    token exactly when the application-wide limiter holds fewer than 100
    hits for the client, the login limiter fewer than 5, the trimmed user
    name is the configured one and the password is the configured one,
    character for character, both non-empty.  The token is signed for the
    configured name, and a login leaves the login limiter's count as it
    was; a configured name with white space at either end can never log
    in.  With 100 hits at the first limiter or 5 at the second the answer
    is that limiter's 429, whatever the credentials.  An answer of the
    handler that is not a login (400 for an empty trimmed user name or an
    empty password, before any comparison, or 401) adds one to the login
    limiter's count, so that the sixth request after five failures is
    refused even with the right credentials. *)
Theorem login_accepts_exactly_the_administrator acc h b :
  let o := loginRequest acc h b in
  ((∃ token user, o.1 = Passed (inr (LoggedIn token user))) ↔
   (apiHits h < 100)%nat ∧ (loginHits h < 5)%nat ∧
   trim (username b) = ADMIN_USERNAME acc ∧ password b = ADMIN_PASSWORD acc ∧
   ADMIN_USERNAME acc ≠ "" ∧ ADMIN_PASSWORD acc ≠ "") ∧
  (∀ token user, o.1 = Passed (inr (LoggedIn token user)) →
     user = ADMIN_USERNAME acc ∧ token = sign acc (ADMIN_USERNAME acc) ∧
     trim (ADMIN_USERNAME acc) = ADMIN_USERNAME acc ∧
     o.2 = mkHits (S (apiHits h)) (loginHits h)) ∧
  ((100 ≤ apiHits h)%nat →
   o = (TooManyRequests "Too many requests from this IP, please try again later.",
        mkHits (S (apiHits h)) (loginHits h))) ∧
  ((apiHits h < 100)%nat → (5 ≤ loginHits h)%nat →
   o = (TooManyRequests "Too many login attempts, please try again later.",
        mkHits (S (apiHits h)) (S (loginHits h)))) ∧
  ((apiHits h < 100)%nat → (loginHits h < 5)%nat →
   o.1 = Passed (loginHandler acc b) ∧
   (trim (username b) = "" ∨ password b = "" →
    ∃ details, o.1 = Passed (inl (mkResponse 400 (ValidationFailed details)))) ∧
   ((∀ token user, o.1 ≠ Passed (inr (LoggedIn token user))) →
    o.2 = mkHits (S (apiHits h)) (S (loginHits h)))).
Proof.
  intros o.
  destruct (loginHandler_answers acc b) as (Hiff & Hsigned & Hempty).
  pose proof (loginHandler_successful acc b) as Hsucc.
  subst o. unfold loginRequest, loginRoute, rateLimit, limiter, authLimiter.
  cbn [max limitMessage skipSuccessfulRequests andb].
  destruct (Nat.ltb_spec 100 (S (apiHits h))) as [Hapi|Hapi]; cbn [fst snd].
  { split; [split; [by intros (? & ? & ?) | lia]|].
    split; [done|]. split; [done|]. split; lia. }
  destruct (Nat.ltb_spec 5 (S (loginHits h))) as [Hlogin|Hlogin]; cbn [fst snd].
  { split; [split; [by intros (? & ? & ?) | lia]|].
    split; [done|]. split; [lia|]. split; [done | lia]. }
  split; [|split; [|split; [|split]]]; try lia.
  - split.
    + intros (token & user & [= E]). repeat split; try lia; apply Hiff; eauto.
    + intros (_ & _ & Hcred). destruct (proj2 Hiff Hcred) as (token & user & E).
      exists token, user. by rewrite E.
  - intros token user [= E]. destruct (Hsigned _ _ E) as (-> & -> & Htrim).
    repeat split; [done|]. by rewrite (proj2 Hsucc) by eauto.
  - intros _ _. split; [done|]. split.
    + intros Hblank. destruct (Hempty Hblank) as [details E].
      exists details. by rewrite E.
    + intros Hnot. destruct (successful (loginHandler acc b)) eqn:Hs; [|done].
      destruct (proj1 Hsucc eq_refl) as (token & user & E).
      exfalso. apply (Hnot token user). by rewrite E.
Qed.

Lemma revoke_route_revokes_witness :
  value (revokeRoute Sample.services ValidToken Sample.online Sample.online
           "CERT1700000000123" Sample.mirrored)
  = inr (inr (RevokedOk "0xabc")).
Proof.
  refine (proj1 (revoke_route_revokes Sample.services Sample.online Sample.online
                   "CERT1700000000123" Sample.mirrored _ _ _ _ _ _));
    vm_compute; reflexivity.
Defined.

Lemma revoke_route_refusals_witness :
  value (revokeRoute AdminSample.stranger ValidToken Sample.online Sample.online
           "CERT1700000000123" Sample.mirrored)
  = inr (refuse 500 (callException Sample.online "Not authorized")).
Proof.
  refine (proj2 (proj1 (proj2 (proj2 (proj2
            (revoke_route_refusals AdminSample.stranger ValidToken Sample.online
               Sample.online "CERT1700000000123" Sample.mirrored))
            eq_refl eq_refl eq_refl)) _ _) _ _);
    vm_compute; reflexivity.
Defined.

Lemma update_replaces_document_witness :
  uploads (world (updateRoute Sample.services ValidToken 1700000500000
                    "CERT1700000000123" AdminSample.replace Sample.mirrored))
  !! "CERT1700000000123.png" = Some "PNG bytes".
Proof.
  refine (proj1 (proj2 (proj2 (update_replaces_document Sample.services 1700000500000
            "CERT1700000000123" AdminSample.replace Sample.mirrored Sample.row
            AdminSample.photo _ _ _ _)))).
  1-3: vm_compute; reflexivity.
  vm_compute. discriminate.
Defined.

(** X18. A refused upload writes nothing.  When the attached file is of a
    type outside the allow-list or larger than the size limit, the issue
    route and the authenticated update route answer without any effect on
    the stores: status 400 "File too large" for an allowed type over the
    limit, and status 500 "Internal server error" for a type that is not
    allowed, whatever the size. *)
Theorem refused_upload_writes_nothing sv env req now cid ureq w f :
  uploadAccepted (Some f) = false →
  let refusal :=
    if bool_decide (mimetype f ∈ allowedTypes)
    then mkResponse 400 (ErrorMessage "File too large. Maximum size is 10MB.")
    else mkResponse 500
           (InternalServerError
              (if development sv
               then Some "Only PDF, PNG, and JPEG files are allowed" else None)) in
  (document req = Some f →
   issueRoute sv env req w = mkOutcome w [] (inr refusal)) ∧
  (replacement ureq = Some f →
   updateRoute sv ValidToken now cid ureq w = mkOutcome w [] (inr (inl refusal))).
Proof.
  intros Hno refusal. subst refusal. unfold uploadAccepted in Hno.
  split; intros Hfile.
  - unfold issueRoute. rewrite Hfile. unfold_routes.
    destruct (bool_decide (mimetype f ∈ allowedTypes)); cbn [negb andb] in *; norm.
    + apply negb_false_iff in Hno. rewrite Hno. norm. done.
    + done.
  - unfold updateRoute. rewrite Hfile. unfold_admin.
    destruct (bool_decide (mimetype f ∈ allowedTypes)); cbn [negb andb] in *; norm.
    + apply negb_false_iff in Hno. rewrite Hno. norm. done.
    + done.
Qed.

Lemma refused_upload_writes_nothing_witness :
  issueRoute Sample.services Sample.laterEnv
    (mkIssueRequest (mkIssueBody "Ada Lovelace" "Computer Science" "A")
       (Some Sample.notes))
    Sample.ledgerOnly
  = mkOutcome Sample.ledgerOnly []
      (inr (mkResponse 500 (InternalServerError None))).
Proof.
  refine (proj1 (refused_upload_writes_nothing Sample.services Sample.laterEnv
            (mkIssueRequest (mkIssueBody "Ada Lovelace" "Computer Science" "A")
               (Some Sample.notes))
            0 "" (mkUpdateRequest None None) Sample.ledgerOnly Sample.notes _) eq_refl).
  vm_compute. reflexivity.
Defined.

(** *** The routes on the sample data *)

Example login_trims_the_user_name :
  loginRoute AdminSample.accounts 0 (mkLoginBody "  registrar " "s3cret")
  = (Passed (inr (LoggedIn "jwt:registrar" "registrar")), 0%nat) ∧
  loginRoute AdminSample.accounts 0 (mkLoginBody "registrar" " s3cret")
  = (Passed (refuse 401 "Invalid credentials"), 1%nat).
Proof. vm_compute. auto. Qed.

(** Five wrong passwords, then the right one. *)
Example sixth_attempt_is_refused :
  let wrong := mkLoginBody "registrar" "guess" in
  let right := mkLoginBody "registrar" "s3cret" in
  let after := foldl (fun hits body => (loginRoute AdminSample.accounts hits body).2)
                 0%nat [wrong; wrong; wrong; wrong; wrong] in
  after = 5%nat ∧
  loginRoute AdminSample.accounts after right
  = (TooManyRequests "Too many login attempts, please try again later.", 6%nat).
Proof. vm_compute. auto. Qed.

Example stats_on_the_sample :
  value (statsRoute ValidToken (fun _ => Sample.online) Sample.mirroredRevoked)
  = inr (inr (Stats 1 0 1 1)) ∧
  value (statsRoute ValidToken (fun _ => Sample.offline) Sample.mirroredRevoked)
  = inr (inr (Stats 1 0 0 1)).
Proof. vm_compute. auto. Qed.

End AdminProperties.
